(** * Pill-reminder-pi: the classes of [src/classes.js]

    A shallow embedding of [Medication], [Person] and [UserManager] and of the
    part of the JavaScript runtime they run on: dynamically typed values,
    exceptions, [Date] with its ISO-8601 text form, the console, and the
    suspension points of [async] methods ([await fetch(...)], [await res.json()]).

    Layout: the runtime ([JS], [JSDate], [Host]), the effect language of
    method bodies ([Async]), the three classes, the records of the remote
    store ([Wire]), sample data, callers; then the properties. *)

From Stdlib Require Import ZArith List String Ascii Bool Lia DecimalString.
Import ListNotations.
Local Open Scope list_scope.
Local Open Scope string_scope.
Local Open Scope Z_scope.
Set Warnings "-register-all".

(** ** Values, exceptions and completions *)

Module JS.

(** A JavaScript value as far as this program meets them: the values of a JSON
    document plus [undefined].  Numbers are the integers among the doubles
    (counts, status codes, time values); an object is the list of its own
    properties, first binding of a key first.  What is not here is outside
    every statement below: numbers that are not integers, NaN and the
    infinities, Symbols, BigInts and functions. *)
Inductive value : Type :=
| VUndefined
| VNull
| VBool (b : bool)
| VNum (n : Z)
| VStr (s : string)
| VArr (items : list value)
| VObj (props : list (string * value)).

(** The constructors of the error objects that reach a [catch] here. *)
Inductive exn_ctor : Type := Error | TypeError | RangeError | SyntaxError.

(** An error object; [message] is what [err.message] reads.  The wording of
    the messages of engine-raised errors is the engine's own (V8's is used). *)
Record exn : Type := new_exn { ctor : exn_ctor; message : string }.

(** The outcome of evaluating an expression: a value or a [throw]. *)
Inductive completion (A : Type) : Type :=
| Normal (a : A)
| Thrown (e : exn).
Arguments Normal {A} a.
Arguments Thrown {A} e.

Definition cbind {A B} (c : completion A) (f : A -> completion B) : completion B :=
  match c with
  | Normal a => f a
  | Thrown e => Thrown e
  end.

(** The first own property named [key], or [undefined]. *)
Fixpoint lookup (key : string) (props : list (string * value)) : value :=
  match props with
  | [] => VUndefined
  | (k, v) :: rest => if String.eqb k key then v else lookup key rest
  end.

Definition has_key (key : string) (props : list (string * value)) : bool :=
  existsb (fun kv => String.eqb (fst kv) key) props.

(** [v.key], for the keys this program reads ([name], [medications],
    [frequencyPerDay], [taken], [refillDate], [userId]): none of them is on a
    built-in prototype, so on a primitive or an array the result is
    [undefined]; on [undefined] and [null] the access throws. *)
Definition get (v : value) (key : string) : completion value :=
  match v with
  | VUndefined =>
      Thrown (new_exn TypeError ("Cannot read properties of undefined (reading '" ++ key ++ "')"))
  | VNull =>
      Thrown (new_exn TypeError ("Cannot read properties of null (reading '" ++ key ++ "')"))
  | VObj props => Normal (lookup key props)
  | _ => Normal VUndefined
  end.

(** The receiver of [v.forEach(f)] and [v.map(f)], where [object] is the
    expression that gave [v]: only an array has these methods (nothing in a
    JSON document is callable). *)
Definition array_items (v : value) (object method : string) : completion (list value) :=
  match v with
  | VArr items => Normal items
  | VUndefined =>
      Thrown (new_exn TypeError ("Cannot read properties of undefined (reading '" ++ method ++ "')"))
  | VNull =>
      Thrown (new_exn TypeError ("Cannot read properties of null (reading '" ++ method ++ "')"))
  | _ => Thrown (new_exn TypeError (object ++ "." ++ method ++ " is not a function"))
  end.

(** [a ?? b] *)
Definition nullish (a b : value) : value :=
  match a with
  | VUndefined | VNull => b
  | _ => a
  end.

(** Number::toString on an integer: its decimal digits.  This is what the
    engine writes for the safe integers, those up to 2^53 - 1 in absolute
    value; beyond them it writes the shortest digits that give the double
    back, and from 10^21 on exponent notation.  Status codes and indices
    are safe; where a statement prints any other number it asks for one. *)
Definition Number_toString (n : Z) : string :=
  NilZero.string_of_int (Z.to_int n).

(** ToString, as a template literal applies it to a substitution.  An array
    joins its elements with commas ([undefined] and [null] elements give the
    empty string); a plain object gives "[object Object]" unless it has an own
    [toString] property, which, not being callable, leaves OrdinaryToPrimitive
    without a primitive: a TypeError. *)
Fixpoint ToString (v : value) : completion string :=
  match v with
  | VUndefined => Normal "undefined"
  | VNull => Normal "null"
  | VBool true => Normal "true"
  | VBool false => Normal "false"
  | VNum n => Normal (Number_toString n)
  | VStr s => Normal s
  | VArr items =>
      let element (x : value) : completion string :=
        match x with
        | VUndefined | VNull => Normal ""
        | _ => ToString x
        end in
      (fix join (xs : list value) : completion string :=
         match xs with
         | [] => Normal ""
         | [x] => element x
         | x :: rest =>
             cbind (element x) (fun s =>
             cbind (join rest) (fun r => Normal (s ++ "," ++ r)))
         end) items
  | VObj props =>
      if has_key "toString" props
      then Thrown (new_exn TypeError "Cannot convert object to primitive value")
      else Normal "[object Object]"
  end.

(** What [JSON.parse(JSON.stringify(v))] gives back for a value inside a
    document: a property whose value is [undefined] is dropped, an [undefined]
    array element becomes [null]. *)
Fixpoint JSON_echo (v : value) : value :=
  match v with
  | VArr items =>
      VArr (map (fun x => match x with VUndefined => VNull | _ => JSON_echo x end) items)
  | VObj props =>
      VObj ((fix echo_props (ps : list (string * value)) : list (string * value) :=
               match ps with
               | [] => []
               | (k, VUndefined) :: rest => echo_props rest
               | (k, x) :: rest => (k, JSON_echo x) :: echo_props rest
               end) props)
  | _ => v
  end.

End JS.
Import JS.

(** ** Date (ECMAScript 21.4) *)

Module JSDate.

(** A Date object holds a time value: milliseconds since 1970-01-01T00:00Z, or
    NaN, the "Invalid Date". *)
Inductive Date : Type :=
| TimeValue (tv : Z)
| InvalidDate.

Definition msPerDay : Z := 86400000.
Definition msPerHour : Z := 3600000.
Definition msPerMinute : Z := 60000.
Definition msPerSecond : Z := 1000.
Definition maxTime : Z := 8640000000000000.

Definition TimeClip (t : Z) : Date :=
  if Z.abs t <=? maxTime then TimeValue t else InvalidDate.

Definition Day (t : Z) : Z := t / msPerDay.
Definition TimeWithinDay (t : Z) : Z := t mod msPerDay.

Definition DaysInYear (y : Z) : Z :=
  if negb (y mod 4 =? 0) then 365
  else if negb (y mod 100 =? 0) then 366
  else if negb (y mod 400 =? 0) then 365
  else 366.

Definition DayFromYear (y : Z) : Z :=
  365 * (y - 1970) + (y - 1969) / 4 - (y - 1901) / 100 + (y - 1601) / 400.

(** The largest year whose first day is not after day [d]: an estimate from
    the mean length of a year, off by at most one, then put right. *)
Definition YearFromDay (d : Z) : Z :=
  let y0 := 1970 + (400 * d) / 146097 in
  if d <? DayFromYear y0 then y0 - 1
  else if DayFromYear (y0 + 1) <=? d then y0 + 1
  else y0.

Definition YearFromTime (t : Z) : Z := YearFromDay (Day t).
Definition InLeapYear (t : Z) : Z := DaysInYear (YearFromTime t) - 365.
Definition DayWithinYear (t : Z) : Z := Day t - DayFromYear (YearFromTime t).

(** Days of the year before month [m] (0 = January), [leap] being 0 or 1. *)
Definition DaysBeforeMonth (m leap : Z) : Z :=
  if m <=? 0 then 0
  else if m =? 1 then 31
  else if m =? 2 then 59 + leap
  else if m =? 3 then 90 + leap
  else if m =? 4 then 120 + leap
  else if m =? 5 then 151 + leap
  else if m =? 6 then 181 + leap
  else if m =? 7 then 212 + leap
  else if m =? 8 then 243 + leap
  else if m =? 9 then 273 + leap
  else if m =? 10 then 304 + leap
  else 334 + leap.

Definition MonthFromTime (t : Z) : Z :=
  let d := DayWithinYear t in
  let leap := InLeapYear t in
  if d <? 31 then 0
  else if d <? 59 + leap then 1
  else if d <? 90 + leap then 2
  else if d <? 120 + leap then 3
  else if d <? 151 + leap then 4
  else if d <? 181 + leap then 5
  else if d <? 212 + leap then 6
  else if d <? 243 + leap then 7
  else if d <? 273 + leap then 8
  else if d <? 304 + leap then 9
  else if d <? 334 + leap then 10
  else 11.

Definition DateFromTime (t : Z) : Z :=
  DayWithinYear t - DaysBeforeMonth (MonthFromTime t) (InLeapYear t) + 1.

Definition HourFromTime (t : Z) : Z := (t / msPerHour) mod 24.
Definition MinFromTime (t : Z) : Z := (t / msPerMinute) mod 60.
Definition SecFromTime (t : Z) : Z := (t / msPerSecond) mod 60.
Definition msFromTime (t : Z) : Z := t mod msPerSecond.

Definition MakeTime (hour min sec ms : Z) : Z :=
  hour * msPerHour + min * msPerMinute + sec * msPerSecond + ms.

Definition MakeDay (year month date : Z) : Z :=
  let ym := year + month / 12 in
  let mn := month mod 12 in
  DayFromYear ym + DaysBeforeMonth mn (DaysInYear ym - 365) + date - 1.

Definition MakeDate (day time : Z) : Z := day * msPerDay + time.

(** *** The text of [toISOString] *)

Definition digit (k : Z) : ascii := ascii_of_nat (48 + Z.to_nat k).

Definition put2 (k : Z) (rest : string) : string :=
  String (digit (k / 10)) (String (digit (k mod 10)) rest).
Definition put3 (k : Z) (rest : string) : string :=
  String (digit (k / 100)) (put2 (k mod 100) rest).
Definition put4 (k : Z) (rest : string) : string :=
  put2 (k / 100) (put2 (k mod 100) rest).
Definition put6 (k : Z) (rest : string) : string :=
  put2 (k / 10000) (put4 (k mod 10000) rest).

(** Years 0 to 9999 take four digits, the others a sign and six. *)
Definition putYear (y : Z) (rest : string) : string :=
  if (0 <=? y) && (y <=? 9999) then put4 y rest
  else if y <? 0 then String "-" (put6 (- y) rest)
  else String "+" (put6 y rest).

(** YYYY-MM-DDTHH:mm:ss.sssZ of a time value. *)
Definition ISOString (t : Z) : string :=
  putYear (YearFromTime t)
    (String "-" (put2 (MonthFromTime t + 1)
    (String "-" (put2 (DateFromTime t)
    (String "T" (put2 (HourFromTime t)
    (String ":" (put2 (MinFromTime t)
    (String ":" (put2 (SecFromTime t)
    (String "." (put3 (msFromTime t) "Z")))))))))))).

(** [d.toISOString()]: a RangeError on the Invalid Date. *)
Definition toISOString (d : Date) : completion string :=
  match d with
  | TimeValue t => Normal (ISOString t)
  | InvalidDate => Thrown (new_exn RangeError "Invalid time value")
  end.

(** *** Reading the same text back *)

Definition digit_value (c : ascii) : Z := Z.of_nat (nat_of_ascii c) - 48.

Fixpoint read_digits (n : nat) (acc : Z) (s : string) : option (Z * string) :=
  match n with
  | O => Some (acc, s)
  | S n' =>
      match s with
      | String c rest => read_digits n' (10 * acc + digit_value c) rest
      | EmptyString => None
      end
  end.

Definition expect (c : ascii) (s : string) : option string :=
  match s with
  | String c' rest => if Ascii.eqb c c' then Some rest else None
  | EmptyString => None
  end.

Definition obind {A B} (o : option A) (f : A -> option B) : option B :=
  match o with
  | Some a => f a
  | None => None
  end.

Definition read_year (s : string) : option (Z * string) :=
  match s with
  | String c rest =>
      if Ascii.eqb c "+" then read_digits 6 0 rest
      else if Ascii.eqb c "-" then
        obind (read_digits 6 0 rest) (fun '(y, rest') => Some (- y, rest'))
      else read_digits 4 0 s
  | EmptyString => None
  end.

(** The fields of a text of the shape [ISOString] writes, put together with
    MakeDay, MakeTime and MakeDate. *)
Definition read_fields (s : string) : option Z :=
  obind (read_year s) (fun '(year, s) =>
  obind (expect "-" s) (fun s =>
  obind (read_digits 2 0 s) (fun '(month, s) =>
  obind (expect "-" s) (fun s =>
  obind (read_digits 2 0 s) (fun '(date, s) =>
  obind (expect "T" s) (fun s =>
  obind (read_digits 2 0 s) (fun '(hour, s) =>
  obind (expect ":" s) (fun s =>
  obind (read_digits 2 0 s) (fun '(min, s) =>
  obind (expect ":" s) (fun s =>
  obind (read_digits 2 0 s) (fun '(sec, s) =>
  obind (expect "." s) (fun s =>
  obind (read_digits 3 0 s) (fun '(ms, s) =>
  if String.eqb s "Z"
  then Some (MakeDate (MakeDay year (month - 1) date) (MakeTime hour min sec ms))
  else None))))))))))))).

(** The time value of a text that is exactly what [toISOString] writes for
    some date in range: it is read field by field and accepted when writing
    the result gives the text back. *)
Definition parse_ISOString (s : string) : option Z :=
  match read_fields s with
  | Some t =>
      if (Z.abs t <=? maxTime) && String.eqb (ISOString t) s then Some t else None
  | None => None
  end.

End JSDate.
Import JSDate.


(** What the host adds to the language: [Date.parse] on a text that is not a
    complete UTC date-time as [toISOString] writes it (the shorter ISO forms,
    local times, and the formats an implementation accepts on its own), and
    [toDateString], which renders a date in the local time zone. *)
Class Host : Type := {
  Date_parse_other : string -> Date;
  toDateString : Date -> string
}.

(** [Date.parse(s)], as a Date. *)
Definition Date_parse `{Host} (s : string) : Date :=
  match parse_ISOString s with
  | Some t => TimeValue t
  | None => Date_parse_other s
  end.

(** [new Date(v)] for a value that is not itself a Date: a string is parsed,
    an array or object is first turned into a string (ToPrimitive), anything
    else into a number. *)
Definition Date_new `{Host} (v : value) : completion Date :=
  match v with
  | VUndefined => Normal InvalidDate
  | VNull => Normal (TimeValue 0)
  | VBool b => Normal (TimeValue (if b then 1 else 0))
  | VNum n => Normal (TimeClip n)
  | VStr s => Normal (Date_parse s)
  | VArr _ | VObj _ => cbind (ToString v) (fun s => Normal (Date_parse s))
  end.

(** The text [JSON.stringify] writes for a value, kept as that value;
    [JSON.parse] of it is the value a reader gets. *)
Inductive json_text : Type := JSON_stringify (v : value).

Definition JSON_parse (t : json_text) : value :=
  match t with JSON_stringify v => JSON_echo v end.

(** ** The effects of a method body *)

Module Async.

(** The argument of [fetch]: the URL and the options ([method] is GET and
    there are no headers and no body when no options are given). *)
Record Request : Type := {
  url : string;
  method : string;
  headers : list (string * string);
  body : option json_text
}.

(** The Response a fetch resolves with; [json] is what [await res.json()]
    gives: the parsed body, or the SyntaxError of a body that is not JSON. *)
Record Response : Type := {
  ok : bool;
  status : Z;
  json : completion value
}.

Inductive console_method : Type := console_log | console_warn | console_error.

Section Prog.
(** [This] is the object whose fields the running method reads and writes;
    [Shown] the objects it hands to the console. *)
Context {This Shown : Type}.

Inductive console_arg : Type :=
| CStr (s : string)
| CObj (o : Shown).

Record console_call : Type := {
  level : console_method;
  args : list console_arg
}.

(** A method body: it returns or throws, reads and writes [this], writes to
    the console, reads the clock, and suspends at [await fetch(...)] and at
    [await res.json()] until the reply is there. *)
Inductive prog (A : Type) : Type :=
| Ret (a : A)
| Throw (e : exn)
| GetThis (k : This -> prog A)
| SetThis (s : This) (k : prog A)
| Console (c : console_call) (k : prog A)
| Now (k : Z -> prog A)
| AwaitFetch (req : Request) (k : completion Response -> prog A)
| AwaitJson (res : Response) (k : completion value -> prog A).
Arguments Ret {A} a.
Arguments Throw {A} e.
Arguments GetThis {A} k.
Arguments SetThis {A} s k.
Arguments Console {A} c k.
Arguments Now {A} k.
Arguments AwaitFetch {A} req k.
Arguments AwaitJson {A} res k.

Fixpoint bind {A B : Type} (p : prog A) (f : A -> prog B) : prog B :=
  match p with
  | Ret a => f a
  | Throw e => Throw e
  | GetThis k => GetThis (fun s => bind (k s) f)
  | SetThis s k => SetThis s (bind k f)
  | Console c k => Console c (bind k f)
  | Now k => Now (fun t => bind (k t) f)
  | AwaitFetch req k => AwaitFetch req (fun r => bind (k r) f)
  | AwaitJson res k => AwaitJson res (fun r => bind (k r) f)
  end.

(** [try { body } catch (err) { handler }] *)
Fixpoint try_catch {A : Type} (body : prog A) (handler : exn -> prog A) : prog A :=
  match body with
  | Ret a => Ret a
  | Throw e => handler e
  | GetThis k => GetThis (fun s => try_catch (k s) handler)
  | SetThis s k => SetThis s (try_catch k handler)
  | Console c k => Console c (try_catch k handler)
  | Now k => Now (fun t => try_catch (k t) handler)
  | AwaitFetch req k => AwaitFetch req (fun r => try_catch (k r) handler)
  | AwaitJson res k => AwaitJson res (fun r => try_catch (k r) handler)
  end.

(** An expression evaluated inside a method body. *)
Definition lift {A : Type} (c : completion A) : prog A :=
  match c with
  | Normal a => Ret a
  | Thrown e => Throw e
  end.

Definition console (m : console_method) (xs : list console_arg) : prog unit :=
  Console {| level := m; args := xs |} (Ret tt).

(** [xs.map(f)] *)
Fixpoint mapM {A B : Type} (f : A -> prog B) (xs : list A) : prog (list B) :=
  match xs with
  | [] => Ret []
  | x :: rest =>
      bind (f x) (fun y => bind (mapM f rest) (fun ys => Ret (y :: ys)))
  end.

(** [xs.forEach(x => ...)] where the callback updates a local object. *)
Fixpoint forEach {A B : Type} (f : B -> A -> prog B) (xs : list A) (b : B) : prog B :=
  match xs with
  | [] => Ret b
  | x :: rest => bind (f b x) (fun b' => forEach f rest b')
  end.

(** *** Running a body *)

(** What a run leaves behind: the object, the console, the requests sent. *)
Record World : Type := {
  this : This;
  console_out : list console_call;
  network : list Request
}.

(** The outside: how the network answers a request (by a Response, or by
    the error a failed transport rejects with) and what the clock shows;
    both may depend on all that happened before. *)
Record Env : Type := {
  fetch : World -> Request -> completion Response;
  clock : World -> Z
}.

Definition set_this (s : This) (w : World) : World :=
  {| this := s; console_out := console_out w; network := network w |}.
Definition print (c : console_call) (w : World) : World :=
  {| this := this w; console_out := console_out w ++ [c]; network := network w |}.
Definition send (req : Request) (w : World) : World :=
  {| this := this w; console_out := console_out w; network := network w ++ [req] |}.

(** The run of a call to its end, every await resumed with the reply of the
    outside at that moment.  [Thrown] is a rejected promise. *)
Fixpoint run (env : Env) {A : Type} (p : prog A) (w : World) : World * completion A :=
  match p with
  | Ret a => (w, Normal a)
  | Throw e => (w, Thrown e)
  | GetThis k => run env (k (this w)) w
  | SetThis s k => run env k (set_this s w)
  | Console c k => run env k (print c w)
  | Now k => run env (k (clock env w)) w
  | AwaitFetch req k => run env (k (fetch env w req)) (send req w)
  | AwaitJson res k => run env (k (json res)) w
  end.

(** Where a call stands when it first gives up control. *)
Inductive paused (A : Type) : Type :=
| Settled (r : completion A)
| OnFetch (req : Request) (k : completion Response -> prog A)
| OnJson (res : Response) (k : completion value -> prog A).
Arguments Settled {A} r.
Arguments OnFetch {A} req k.
Arguments OnJson {A} res k.

(** The synchronous part of a call: up to its end or its first await.  At
    [OnFetch] fetch has been called: the request is in [network] and the
    call waits for the reply. *)
Fixpoint start (env : Env) {A : Type} (p : prog A) (w : World) : World * paused A :=
  match p with
  | Ret a => (w, Settled (Normal a))
  | Throw e => (w, Settled (Thrown e))
  | GetThis k => start env (k (this w)) w
  | SetThis s k => start env k (set_this s w)
  | Console c k => start env k (print c w)
  | Now k => start env (k (clock env w)) w
  | AwaitFetch req k => (send req w, OnFetch req k)
  | AwaitJson res k => (w, OnJson res k)
  end.

(** Several calls of the console at once. *)
Definition prints (cs : list console_call) (w : World) : World :=
  {| this := this w; console_out := console_out w ++ cs; network := network w |}.

(** A body that never assigns to [this]. *)
Inductive keeps_this {A : Type} : prog A -> Prop :=
| keeps_Ret a : keeps_this (Ret a)
| keeps_Throw e : keeps_this (Throw e)
| keeps_GetThis k : (forall s, keeps_this (k s)) -> keeps_this (GetThis k)
| keeps_Console c k : keeps_this k -> keeps_this (Console c k)
| keeps_Now k : (forall t, keeps_this (k t)) -> keeps_this (Now k)
| keeps_AwaitFetch req k : (forall r, keeps_this (k r)) -> keeps_this (AwaitFetch req k)
| keeps_AwaitJson res k : (forall r, keeps_this (k r)) -> keeps_this (AwaitJson res k).

(** The rest of a paused call, taken up in the world [w] of that later
    moment with the reply the outside gives then. *)
Definition finish (env : Env) {A : Type} (wp : World * paused A) : World * completion A :=
  match wp with
  | (w, Settled r) => (w, r)
  | (w, OnFetch req k) => run env (k (fetch env w req)) w
  | (w, OnJson res k) => run env (k (json res)) w
  end.

End Prog.

Arguments console_arg : clear implicits.
Arguments console_call : clear implicits.
Arguments prog : clear implicits.
Arguments World : clear implicits.
Arguments Env : clear implicits.
Arguments paused : clear implicits.
Arguments keeps_this {This Shown A} p.
Arguments Ret {This Shown A} a.
Arguments Throw {This Shown A} e.
Arguments GetThis {This Shown A} k.
Arguments SetThis {This Shown A} s k.
Arguments Console {This Shown A} c k.
Arguments Now {This Shown A} k.
Arguments AwaitFetch {This Shown A} req k.
Arguments AwaitJson {This Shown A} res k.
Arguments Settled {This Shown A} r.
Arguments OnFetch {This Shown A} req k.
Arguments OnJson {This Shown A} res k.
Arguments CStr {Shown} s.
Arguments CObj {Shown} o.

Declare Scope prog_scope.
Delimit Scope prog_scope with prog.
Notation "x <- p ;; k" := (bind p (fun x => k))
  (at level 61, p at next level, right associativity) : prog_scope.
Notation "p ;; k" := (bind p (fun _ => k))
  (at level 61, right associativity) : prog_scope.

End Async.
Import Async.
Local Open Scope prog_scope.

(** ** class Medication *)

Module Medication.

Record t : Type := {
  name : value;
  frequencyPerDay : value;
  taken : value;
  refillDate : Date
}.

(** The fourth argument of the constructor: a Date object, or anything
    else ([undefined] when it is left out). *)
Inductive date_arg : Type :=
| ADate (d : Date)
| AValue (v : value).

Section Methods.
Context `{Host} {This Shown : Type}.

(** [new Medication(name, frequencyPerDay, taken = false, refillDate = new Date())] *)
Definition new (name frequencyPerDay taken : value) (refillDate : date_arg)
  : prog This Shown t :=
  let taken := match taken with VUndefined => VBool false | _ => taken end in
  refillDate <- match refillDate with
                | AValue VUndefined => Now (fun now => Ret (ADate (TimeClip now)))
                | _ => Ret refillDate
                end ;;
  d <- match refillDate with
       | ADate d => Ret d
       | AValue v => lift (Date_new v)
       end ;;
  Ret {| name := name; frequencyPerDay := frequencyPerDay;
         taken := taken; refillDate := d |}.
End Methods.

Definition markAsTaken (this : t) : t :=
  {| name := name this; frequencyPerDay := frequencyPerDay this;
     taken := VBool true; refillDate := refillDate this |}.

Definition resetTakenStatus (this : t) : t :=
  {| name := name this; frequencyPerDay := frequencyPerDay this;
     taken := VBool false; refillDate := refillDate this |}.

End Medication.

(** ** class Person

    Objects are passed by value: a method that changes its object returns the
    object after the call.  (No property below is about a caller that keeps
    changing a person after handing it to a manager.) *)

Module Person.

Record t : Type := {
  name : value;
  medications : list Medication.t
}.

(** [new Person(name)] *)
Definition new (name : value) : t := {| name := name; medications := [] |}.

Section Methods.
Context `{Host} {This Shown : Type}.

(** [person.addMedication(med)]; the result is the person after the call. *)
Definition addMedication (med : Medication.t) (this : t) : prog This Shown t :=
  if (5 <=? Z.of_nat (List.length (medications this)))
  then
    who <- lift (ToString (name this)) ;;
    console console_warn [CStr (who ++ " already has 5 medications.")] ;;
    Ret this
  else
    Ret {| name := name this; medications := (medications this ++ [med])%list |}.

(** One line of the listing; [i] is the index [forEach] passes. *)
Definition listMedication (i : Z) (m : Medication.t) : prog This Shown Z :=
  number <- lift (ToString (VNum (i + 1))) ;;
  what <- lift (ToString (Medication.name m)) ;;
  howOften <- lift (ToString (Medication.frequencyPerDay m)) ;;
  isTaken <- lift (ToString (Medication.taken m)) ;;
  console console_log
    [CStr (number ++ ". " ++ what ++ " | " ++ howOften ++ "/day | Taken: "
           ++ isTaken ++ " | Refill: " ++ toDateString (Medication.refillDate m))] ;;
  Ret (i + 1).

(** [person.listMedications()] *)
Definition listMedications (this : t) : prog This Shown unit :=
  who <- lift (ToString (name this)) ;;
  console console_log [CStr ("Medications for " ++ who ++ ":")] ;;
  forEach listMedication (medications this) 0 ;;
  Ret tt.
End Methods.

End Person.

(** ** class UserManager *)

Module UserManager.

Record t : Type := {
  apiBaseUrl : value;
  people : list Person.t
}.

(** [new UserManager(apiBaseUrl)] *)
Definition new (apiBaseUrl : value) : t :=
  {| apiBaseUrl := apiBaseUrl; people := [] |}.

(** [this.people = ps] *)
Definition set_people (ps : list Person.t) (this : t) : t :=
  {| apiBaseUrl := apiBaseUrl this; people := ps |}.

(** A method of a UserManager; the console is shown lists of people. *)
Definition action (A : Type) : Type := prog t (list Person.t) A.

Section Methods.
Context `{Host}.

(** [`${this.apiBaseUrl}/users`] *)
Definition users_url (this : t) : completion string :=
  cbind (ToString (apiBaseUrl this)) (fun base => Normal (base ++ "/users")).

(** The object a medication is written as (the callback of
    [person.medications.map] in [savePersonToServer]). *)
Definition medication_payload (m : Medication.t) : completion value :=
  cbind (toISOString (Medication.refillDate m)) (fun iso =>
  Normal (VObj [("name", Medication.name m);
                ("frequencyPerDay", Medication.frequencyPerDay m);
                ("taken", Medication.taken m);
                ("refillDate", VStr iso)])).

Fixpoint medications_payload (ms : list Medication.t) : completion (list value) :=
  match ms with
  | [] => Normal []
  | m :: rest =>
      cbind (medication_payload m) (fun o =>
      cbind (medications_payload rest) (fun os => Normal (o :: os)))
  end.

(** The object [savePersonToServer] hands to [JSON.stringify]. *)
Definition person_payload (person : Person.t) : completion value :=
  cbind (medications_payload (Person.medications person)) (fun ms =>
  Normal (VObj [("name", Person.name person); ("medications", VArr ms)])).

(** The [try] block of [savePersonToServer]. *)
Definition savePersonToServer_try (person : Person.t) : action unit :=
  GetThis (fun this =>
  url <- lift (users_url this) ;;
  payload <- lift (person_payload person) ;;
  AwaitFetch {| url := url; method := "POST";
                headers := [("Content-Type", "application/json")];
                body := Some (JSON_stringify payload) |} (fun reply =>
  res <- lift reply ;;
  if negb (ok res)
  then
    code <- lift (ToString (VNum (status res))) ;;
    Throw (new_exn Error ("Error saving person: " ++ code))
  else
    AwaitJson res (fun parsed =>
    data <- lift parsed ;;
    who <- lift (ToString (Person.name person)) ;;
    userId <- lift (get data "userId") ;;
    id <- lift (ToString (nullish userId (VStr "N/A"))) ;;
    console console_log [CStr ("Saved " ++ who ++ " (User ID: " ++ id ++ ")")]))).

(** Its [catch] block. *)
Definition savePersonToServer_catch (err : exn) : action unit :=
  console console_error [CStr "Failed to save user:"; CStr (message err)].

Definition savePersonToServer (person : Person.t) : action unit :=
  try_catch (savePersonToServer_try person) savePersonToServer_catch.

Definition addPerson (person : Person.t) : action unit :=
  GetThis (fun this =>
  if (5 <=? Z.of_nat (List.length (people this)))
  then console console_warn [CStr "Cannot add more than 5 people."]
  else
    SetThis (set_people (people this ++ [person])%list this)
      (savePersonToServer person)).

(** The callback of [p.medications.forEach] in [loadAllPeople]. *)
Definition attach_medication (person : Person.t) (m : value) : action Person.t :=
  name <- lift (get m "name") ;;
  frequencyPerDay <- lift (get m "frequencyPerDay") ;;
  taken <- lift (get m "taken") ;;
  refill <- lift (get m "refillDate") ;;
  date <- lift (Date_new refill) ;;
  med <- Medication.new name frequencyPerDay taken (Medication.ADate date) ;;
  Person.addMedication med person.

(** The callback of [data.map] in [loadAllPeople]. *)
Definition person_of_record (p : value) : action Person.t :=
  name <- lift (get p "name") ;;
  recorded <- lift (get p "medications") ;;
  items <- lift (array_items recorded "p.medications" "forEach") ;;
  forEach attach_medication items (Person.new name).

(** The [try] block of [loadAllPeople]. *)
Definition loadAllPeople_try : action unit :=
  GetThis (fun this =>
  url <- lift (users_url this) ;;
  AwaitFetch {| url := url; method := "GET"; headers := []; body := None |}
    (fun reply =>
  res <- lift reply ;;
  if negb (ok res)
  then
    code <- lift (ToString (VNum (status res))) ;;
    Throw (new_exn Error ("Error loading data: " ++ code))
  else
    AwaitJson res (fun parsed =>
    data <- lift parsed ;;
    records <- lift (array_items data "data" "map") ;;
    loaded <- mapM person_of_record records ;;
    GetThis (fun this =>
    SetThis (set_people loaded this)
      (console console_log [CStr "Users loaded from API:"; CObj loaded]))))).

(** Its [catch] block. *)
Definition loadAllPeople_catch (err : exn) : action unit :=
  console console_error [CStr "Failed to load users:"; CStr (message err)].

Definition loadAllPeople : action unit :=
  try_catch loadAllPeople_try loadAllPeople_catch.

(** The [try] block of [clearAllDataOnServer]. *)
Definition clearAllDataOnServer_try : action unit :=
  GetThis (fun this =>
  url <- lift (users_url this) ;;
  AwaitFetch {| url := url; method := "DELETE"; headers := []; body := None |}
    (fun reply =>
  lift reply ;;
  GetThis (fun this =>
  SetThis (set_people [] this)
    (console console_log [CStr "All user data cleared on server"])))).

(** Its [catch] block. *)
Definition clearAllDataOnServer_catch (err : exn) : action unit :=
  console console_error [CStr "Failed to clear data:"; CStr (message err)].

Definition clearAllDataOnServer : action unit :=
  try_catch clearAllDataOnServer_try clearAllDataOnServer_catch.

Definition listAll : action unit :=
  GetThis (fun this =>
  forEach (fun (_ : unit) p => Person.listMedications p) (people this) tt).
End Methods.

End UserManager.

(** ** The records of the remote store

    What [GET /users] answers with, and what [loadAllPeople] is to make of it:
    the functions below say it directly; the properties compare the run of
    the method with them. *)

Module Wire.

(** The property [key] of an object, [undefined] for anything else. *)
Definition field (v : value) (key : string) : value :=
  match v with
  | VObj props => lookup key props
  | _ => VUndefined
  end.

Definition is_string (v : value) : bool :=
  match v with VStr _ => true | _ => false end.
Definition is_number (v : value) : bool :=
  match v with VNum _ => true | _ => false end.
Definition is_boolean (v : value) : bool :=
  match v with VBool _ => true | _ => false end.
Definition is_object (v : value) : bool :=
  match v with VObj _ => true | _ => false end.

(** A medication record: an object whose [refillDate] is a string. *)
Definition medication_record (m : value) : bool :=
  is_object m && is_string (field m "refillDate").

(** The entries of the [medications] array of a record. *)
Definition record_medications (p : value) : list value :=
  match field p "medications" with
  | VArr ms => ms
  | _ => []
  end.

(** A person-shaped record: an object with a string [name] and an array
    [medications] of medication records. *)
Definition person_record (p : value) : bool :=
  is_object p && is_string (field p "name")
  && match field p "medications" with
     | VArr ms => forallb medication_record ms
     | _ => false
     end.

Definition text_of (v : value) : string :=
  match v with VStr s => s | _ => "" end.

Section Rebuild.
Context `{Host} {Shown : Type}.

(** The Medication a medication record stands for. *)
Definition medication_of_record (m : value) : Medication.t :=
  {| Medication.name := field m "name";
     Medication.frequencyPerDay := field m "frequencyPerDay";
     Medication.taken :=
       match field m "taken" with VUndefined => VBool false | v => v end;
     Medication.refillDate := Date_parse (text_of (field m "refillDate")) |}.

(** The Person a record stands for: its name and the first five of its
    medications. *)
Definition person_of (p : value) : Person.t :=
  {| Person.name := field p "name";
     Person.medications :=
       firstn 5 (map medication_of_record (record_medications p)) |}.

(** The warning of [addMedication] for a person called [who]. *)
Definition full_warning (who : string) : console_call Shown :=
  {| level := console_warn;
     args := [CStr (who ++ " already has 5 medications.")] |}.

(** One warning for each medication of a record after the fifth. *)
Definition excess_warnings (p : value) : list (console_call Shown) :=
  repeat (full_warning (text_of (field p "name")))
         (List.length (record_medications p) - 5)%nat.
End Rebuild.

(** A Medication and a Person whose fields have the types of the data
    model: a string for each name, an integer for [frequencyPerDay], a
    boolean for [taken]. *)
Definition medication_typed (m : Medication.t) : bool :=
  is_string (Medication.name m) && is_number (Medication.frequencyPerDay m)
  && is_boolean (Medication.taken m).

Definition person_typed (p : Person.t) : bool :=
  is_string (Person.name p) && forallb medication_typed (Person.medications p).

(** A Date that is not the Invalid Date (a Date object never holds a time
    value beyond [maxTime]). *)
Definition date_valid (d : Date) : bool :=
  match d with
  | TimeValue t => Z.abs t <=? maxTime
  | InvalidDate => false
  end.

Definition dates_valid (p : Person.t) : bool :=
  forallb (fun m => date_valid (Medication.refillDate m)) (Person.medications p).

(** Two medications with the same name, frequency, taken flag and refill
    date. *)
Definition same_medication (m m' : Medication.t) : Prop :=
  Medication.name m' = Medication.name m
  /\ Medication.frequencyPerDay m' = Medication.frequencyPerDay m
  /\ Medication.taken m' = Medication.taken m
  /\ Medication.refillDate m' = Medication.refillDate m.

(** The record a medication and a person are written as. *)
Definition iso_text (d : Date) : string :=
  match d with
  | TimeValue t => ISOString t
  | InvalidDate => ""
  end.

Definition record_of_medication (m : Medication.t) : value :=
  VObj [("name", Medication.name m);
        ("frequencyPerDay", Medication.frequencyPerDay m);
        ("taken", Medication.taken m);
        ("refillDate", VStr (iso_text (Medication.refillDate m)))].

Definition record_of_person (p : Person.t) : value :=
  VObj [("name", Person.name p);
        ("medications", VArr (map record_of_medication (Person.medications p)))].

End Wire.

(** ** A host and sample data for the examples *)

Module Sample.

Definition day_names : list string := ["Sun"; "Mon"; "Tue"; "Wed"; "Thu"; "Fri"; "Sat"].
Definition month_names : list string :=
  ["Jan"; "Feb"; "Mar"; "Apr"; "May"; "Jun"; "Jul"; "Aug"; "Sep"; "Oct"; "Nov"; "Dec"].

(** [toDateString] in the time zone UTC. *)
Definition utc_toDateString (d : Date) : string :=
  match d with
  | InvalidDate => "Invalid Date"
  | TimeValue t =>
      let y := YearFromTime t in
      nth (Z.to_nat ((Day t + 4) mod 7)) day_names "" ++ " "
      ++ nth (Z.to_nat (MonthFromTime t)) month_names "" ++ " "
      ++ put2 (DateFromTime t) " "
      ++ (if y <? 0 then "-" else "")
      ++ (if Z.abs y <=? 9999 then put4 (Z.abs y) "" else Number_toString (Z.abs y))
  end.

(** A host in the time zone UTC whose [Date.parse] knows, besides the
    complete form, the date-only form YYYY-MM-DD (midnight UTC). *)
Definition utc_host : Host :=
  {| Date_parse_other := fun s =>
       match parse_ISOString (s ++ "T00:00:00.000Z") with
       | Some t => TimeValue t
       | None => InvalidDate
       end;
     toDateString := utc_toDateString |}.

Definition manager : World UserManager.t (list Person.t) :=
  {| this := UserManager.new (VStr "https://api.example.com");
     console_out := []; network := [] |}.

(** A network that answers every request with [res]. *)
Definition answering (res : Response) : Env UserManager.t (list Person.t) :=
  {| fetch := fun _ _ => Normal res; clock := fun _ => 1704067200000 |}.

(** A network that is down. *)
Definition offline : Env UserManager.t (list Person.t) :=
  {| fetch := fun _ _ => Thrown (new_exn TypeError "fetch failed");
     clock := fun _ => 1704067200000 |}.

Definition sam_record : value :=
  VObj [("name", VStr "Sam");
        ("medications",
         VArr [VObj [("name", VStr "X"); ("frequencyPerDay", VNum 1);
                     ("taken", VBool false);
                     ("refillDate", VStr "2024-01-01T00:00:00.000Z")]])].

Definition pill (name : string) (frequencyPerDay : Z) : Medication.t :=
  {| Medication.name := VStr name; Medication.frequencyPerDay := VNum frequencyPerDay;
     Medication.taken := VBool false; Medication.refillDate := TimeValue 1704067200000 |}.

Definition alex_pills : list Medication.t :=
  [pill "Aspirin" 2; pill "Vitamin D" 1; pill "Metformin" 2;
   pill "Lisinopril" 1; pill "Omeprazole" 1].

Definition alex : Person.t :=
  {| Person.name := VStr "Alex"; Person.medications := alex_pills |}.

Definition named (name : string) : Person.t := Person.new (VStr name).

Definition atorvastatin : Medication.t := pill "Atorvastatin" 1.

(** A medication whose refill date was given as text that is not a date:
    [new Medication("Aspirin", 2, false, "soon")]. *)
Definition undated : Medication.t :=
  {| Medication.name := VStr "Aspirin"; Medication.frequencyPerDay := VNum 2;
     Medication.taken := VBool false; Medication.refillDate := InvalidDate |}.

Definition pat : Person.t :=
  {| Person.name := VStr "Pat"; Person.medications := [undated] |}.

(** A person with a medication whose name is no string but the array
    [[undefined]]: [new Medication([undefined], 1, false, new Date(0))]. *)
Definition kim : Person.t :=
  {| Person.name := VStr "Kim";
     Person.medications :=
       [{| Medication.name := VArr [VUndefined]; Medication.frequencyPerDay := VNum 1;
           Medication.taken := VBool false; Medication.refillDate := TimeValue 0 |}] |}.

Definition record_named (name : string) : value :=
  VObj [("name", VStr name); ("medications", VArr [])].

(** Six people on the server. *)
Definition six_records : list value :=
  [sam_record; record_named "Ann"; record_named "Bob"; record_named "Cy";
   record_named "Di"; record_named "Ed"].

(** A record with six medications. *)
Definition overfull_record : value :=
  VObj [("name", VStr "Alex");
        ("medications",
         VArr (map Wire.record_of_medication (alex_pills ++ [atorvastatin])))].

Definition users_response (records : list value) : Response :=
  {| ok := true; status := 200; json := Normal (VArr records) |}.

Definition created : Response :=
  {| ok := true; status := 201; json := Normal (VObj [("userId", VNum 7)]) |}.

Definition server_error : Response :=
  {| ok := false; status := 500; json := Thrown (new_exn SyntaxError "Unexpected token") |}.

(** What a store that keeps every document it is sent holds after the
    requests [reqs]: the documents POSTed since the last DELETE. *)
Definition stored (reqs : list Request) : list value :=
  fold_left
    (fun docs req =>
       if String.eqb (method req) "DELETE" then []
       else match body req with
            | Some text => (docs ++ [JSON_parse text])%list
            | None => docs
            end)
    reqs [].

(** The network of such a store: GET answers with what is stored. *)
Definition store : Env UserManager.t (list Person.t) :=
  {| fetch := fun w req =>
       if String.eqb (method req) "GET"
       then Normal (users_response (stored (network w)))
       else Normal created;
     clock := fun _ => 1704067200000 |}.

(** A manager that already has people. *)
Definition manager_with (persons : list Person.t)
  : World UserManager.t (list Person.t) :=
  {| this := UserManager.set_people persons (this manager);
     console_out := []; network := [] |}.

Definition five_people : list Person.t :=
  [named "Ann"; named "Bob"; named "Cy"; named "Di"; named "Ed"].

End Sample.

(** ** Callers *)

Module Calls.
Section Calls.
Context `{Host}.

(** [meds.forEach(med => person.addMedication(med))]: one call after the
    other on the same person. *)
Definition addMedications {This Shown : Type} (meds : list Medication.t)
  (person : Person.t) : prog This Shown Person.t :=
  forEach (fun person med => Person.addMedication med person) meds person.

(** [for (const person of persons) await manager.addPerson(person)] *)
Definition addPeople (persons : list Person.t) : UserManager.action unit :=
  forEach (fun (_ : unit) person => UserManager.addPerson person) persons tt.

(** [persons.forEach(person => manager.addPerson(person))]: the calls
    made one after the other without awaiting any; the result is the
    world when the last call has given up control. *)
Definition fireAddPerson (env : Env UserManager.t (list Person.t))
  (persons : list Person.t) (w : World UserManager.t (list Person.t))
  : World UserManager.t (list Person.t) :=
  fold_left (fun w person => fst (start env (UserManager.addPerson person) w))
            persons w.

(** The warning of [addPerson]. *)
Definition people_warning : console_call (list Person.t) :=
  {| level := console_warn; args := [CStr "Cannot add more than 5 people."] |}.

(** The confirmation of [clearAllDataOnServer]. *)
Definition cleared_call : console_call (list Person.t) :=
  {| level := console_log; args := [CStr "All user data cleared on server"] |}.

(** The call of [console.error] in a [catch] block. *)
Definition caught (label : string) (err : exn) : console_call (list Person.t) :=
  {| level := console_error; args := [CStr label; CStr (message err)] |}.

(** The requests of the three remote operations. *)
Definition post_users (url : string) (payload : value) : Request :=
  {| url := url; method := "POST";
     headers := [("Content-Type", "application/json")];
     body := Some (JSON_stringify payload) |}.
Definition get_users (url : string) : Request :=
  {| url := url; method := "GET"; headers := []; body := None |}.
Definition delete_users (url : string) : Request :=
  {| url := url; method := "DELETE"; headers := []; body := None |}.

(** The world after a load that went through: the request sent, the
    warnings for the medications left out, the list replaced, the
    confirmation logged. *)
Definition loaded_world (url : string) (records : list value)
  (w : World UserManager.t (list Person.t)) : World UserManager.t (list Person.t) :=
  print {| level := console_log;
           args := [CStr "Users loaded from API:";
                    CObj (map Wire.person_of records)] |}
    (set_this (UserManager.set_people (map Wire.person_of records) (this w))
       (prints (flat_map Wire.excess_warnings records)
          (send (get_users url) w))).

(** Writing a person and reading the record back gives a person with the
    same name and as many medications, each with the same name,
    frequency, taken flag and refill date. *)
Definition round_trips (person : Person.t) : Prop :=
  exists payload,
    UserManager.person_payload person = Normal payload
    /\ forall env w, exists person',
         run env (UserManager.person_of_record (JSON_parse (JSON_stringify payload))) w
         = (w, Normal person')
         /\ Person.name person' = Person.name person
         /\ List.length (Person.medications person')
            = List.length (Person.medications person)
         /\ Forall2 Wire.same_medication
              (Person.medications person) (Person.medications person').
End Calls.
End Calls.

(** ** What the console and the network are to show

    The listing of a person as [listMedications] is to write it, and the
    predicates used to say what an operation leaves alone. *)

Module Report.

(** The text a template literal puts for a value (empty when the value
    cannot be converted). *)
Definition text (v : value) : string :=
  match ToString v with
  | Normal s => s
  | Thrown _ => ""
  end.

(** A value a template literal can convert. *)
Definition printable (v : value) : bool :=
  match ToString v with
  | Normal _ => true
  | Thrown _ => false
  end.

(** The largest safe integer, 2^53 - 1. *)
Definition max_safe_integer : Z := 9007199254740991.

(** A value all of whose numbers that a conversion to text prints are safe
    integers, so that the text has exactly their decimal digits.  (The text
    of an object shows none of its contents.) *)
Fixpoint numbers_safe (v : value) : bool :=
  match v with
  | VNum n => Z.abs n <=? max_safe_integer
  | VArr items => forallb numbers_safe items
  | _ => true
  end.

Definition medication_numbers_safe (m : Medication.t) : bool :=
  numbers_safe (Medication.name m) && numbers_safe (Medication.frequencyPerDay m)
  && numbers_safe (Medication.taken m).

Definition medication_printable (m : Medication.t) : bool :=
  printable (Medication.name m) && printable (Medication.frequencyPerDay m)
  && printable (Medication.taken m).

Definition person_printable (p : Person.t) : bool :=
  printable (Person.name p) && forallb medication_printable (Person.medications p).

(** A person [listMedications] can list: every field can be converted to
    text, the numbers in the fields are safe integers, and the medications
    are no more than an array can hold. *)
Definition person_listable (p : Person.t) : bool :=
  person_printable p && numbers_safe (Person.name p)
  && forallb medication_numbers_safe (Person.medications p)
  && (Z.of_nat (List.length (Person.medications p)) <=? 4294967295).

(** The [taken] flag of a new medication: [false] when the argument is
    left out. *)
Definition taken_or_false (taken : value) : value :=
  match taken with
  | VUndefined => VBool false
  | _ => taken
  end.

Definition is_array (v : value) : bool :=
  match v with VArr _ => true | _ => false end.

(** A value whose conversion to a Date cannot throw: [undefined], [null],
    a boolean, a number or a string. *)
Definition is_primitive (v : value) : bool :=
  match v with VArr _ | VObj _ => false | _ => true end.

(** A record [loadAllPeople] cannot read: [null], or anything without an
    array under [medications]. *)
Definition unreadable_record (p : value) : bool :=
  match p with
  | VUndefined | VNull => true
  | _ => negb (is_array (Wire.field p "medications"))
  end.

Section Listing.
Context `{Host} {This Shown : Type}.

(** The line of medication [m] at index [i]. *)
Definition medication_line (i : Z) (m : Medication.t) : console_call Shown :=
  {| level := console_log;
     args := [CStr (Number_toString (i + 1) ++ ". " ++ text (Medication.name m)
                    ++ " | " ++ text (Medication.frequencyPerDay m)
                    ++ "/day | Taken: " ++ text (Medication.taken m)
                    ++ " | Refill: " ++ toDateString (Medication.refillDate m))] |}.

Fixpoint medication_lines (i : Z) (ms : list Medication.t) : list (console_call Shown) :=
  match ms with
  | [] => []
  | m :: rest => medication_line i m :: medication_lines (i + 1) rest
  end.

(** The header and one line for each medication, numbered from 1. *)
Definition listing (p : Person.t) : list (console_call Shown) :=
  {| level := console_log;
     args := [CStr ("Medications for " ++ text (Person.name p) ++ ":")] |}
  :: medication_lines 0 (Person.medications p).

(** A body that never calls [fetch]. *)
Inductive sends_nothing {A : Type} : prog This Shown A -> Prop :=
| quiet_Ret a : sends_nothing (Ret a)
| quiet_Throw e : sends_nothing (Throw e)
| quiet_GetThis k : (forall s, sends_nothing (k s)) -> sends_nothing (GetThis k)
| quiet_SetThis s k : sends_nothing k -> sends_nothing (SetThis s k)
| quiet_Console c k : sends_nothing k -> sends_nothing (Console c k)
| quiet_Now k : (forall t, sends_nothing (k t)) -> sends_nothing (Now k)
| quiet_AwaitJson res k : (forall r, sends_nothing (k r)) -> sends_nothing (AwaitJson res k).
End Listing.

(** A person one of whose medications holds the Invalid Date. *)
Definition has_invalid_date (p : Person.t) : bool :=
  existsb (fun m => match Medication.refillDate m with
                    | InvalidDate => true
                    | TimeValue _ => false
                    end)
          (Person.medications p).

(** A person with at most five medications. *)
Definition within_cap (p : Person.t) : Prop :=
  (List.length (Person.medications p) <= 5)%nat.

(** The confirmation of [savePersonToServer]. *)
Definition saved_call (who id : string) : console_call (list Person.t) :=
  {| level := console_log;
     args := [CStr ("Saved " ++ who ++ " (User ID: " ++ id ++ ")")] |}.

End Report.

(** * Properties *)

(** ** The ISO text of a date reads back as the same time value *)

Module JSDateFacts.

Ltac zdiv := Z.div_mod_to_equations; lia.

Lemma digit_cases (k : Z) :
  0 <= k <= 9 ->
  k = 0 \/ k = 1 \/ k = 2 \/ k = 3 \/ k = 4 \/ k = 5 \/ k = 6 \/ k = 7 \/ k = 8 \/ k = 9.
Proof. lia. Qed.

Lemma digit_value_digit (k : Z) :
  0 <= k <= 9 -> digit_value (digit k) = k.
Proof.
  intros Hk. apply digit_cases in Hk.
  repeat (destruct Hk as [-> | Hk]; [reflexivity |]).
  subst k; reflexivity.
Qed.

Lemma digit_not_sign (k : Z) :
  0 <= k <= 9 ->
  Ascii.eqb (digit k) "+" = false /\ Ascii.eqb (digit k) "-" = false.
Proof.
  intros Hk. apply digit_cases in Hk.
  repeat (destruct Hk as [-> | Hk]; [split; reflexivity |]).
  subst k; split; reflexivity.
Qed.

Lemma read_digits_S (n : nat) (acc : Z) (c : ascii) (s : string) :
  read_digits (S n) acc (String c s) = read_digits n (10 * acc + digit_value c) s.
Proof. reflexivity. Qed.

Lemma read_put2 (acc k : Z) (rest : string) :
  0 <= k < 100 ->
  read_digits 2 acc (put2 k rest) = Some (100 * acc + k, rest).
Proof.
  intros Hk. unfold put2. rewrite !read_digits_S.
  rewrite !digit_value_digit by zdiv.
  cbn [read_digits]. do 2 f_equal. zdiv.
Qed.

Lemma read_put3 (acc k : Z) (rest : string) :
  0 <= k < 1000 ->
  read_digits 3 acc (put3 k rest) = Some (1000 * acc + k, rest).
Proof.
  intros Hk. unfold put3. rewrite read_digits_S.
  rewrite digit_value_digit, read_put2 by zdiv.
  do 2 f_equal. zdiv.
Qed.

Lemma read_digits_put2 (n : nat) (acc k : Z) (rest : string) :
  0 <= k < 100 ->
  read_digits (S (S n)) acc (put2 k rest) = read_digits n (100 * acc + k) rest.
Proof.
  intros Hk. unfold put2. rewrite !read_digits_S.
  rewrite !digit_value_digit by zdiv.
  f_equal. zdiv.
Qed.

Lemma read_put4 (acc k : Z) (rest : string) :
  0 <= k < 10000 ->
  read_digits 4 acc (put4 k rest) = Some (10000 * acc + k, rest).
Proof.
  intros Hk. unfold put4.
  rewrite read_digits_put2, read_put2 by zdiv.
  do 2 f_equal. zdiv.
Qed.

Lemma read_put6 (acc k : Z) (rest : string) :
  0 <= k < 1000000 ->
  read_digits 6 acc (put6 k rest) = Some (1000000 * acc + k, rest).
Proof.
  intros Hk. unfold put6.
  rewrite read_digits_put2, read_put4 by zdiv.
  do 2 f_equal. zdiv.
Qed.

Lemma read_year_plus (s : string) :
  read_year (String "+" s) = read_digits 6 0 s.
Proof. reflexivity. Qed.

Lemma read_year_minus (s : string) :
  read_year (String "-" s)
  = obind (read_digits 6 0 s) (fun '(y, rest') => Some (- y, rest')).
Proof. reflexivity. Qed.

Lemma read_year_digit (k : Z) (s : string) :
  0 <= k <= 9 ->
  read_year (String (digit k) s) = read_digits 4 0 (String (digit k) s).
Proof.
  intros Hk. unfold read_year.
  destruct (digit_not_sign k Hk) as [-> ->]. reflexivity.
Qed.

Lemma read_putYear (y : Z) (rest : string) :
  -1000000 < y < 1000000 ->
  read_year (putYear y rest) = Some (y, rest).
Proof.
  intros Hy. unfold putYear.
  destruct (Z.leb_spec 0 y) as [H0 | H0]; cbn [andb].
  - destruct (Z.leb_spec y 9999) as [H1 | H1].
    + pose proof (read_put4 0 y rest) as Hr.
      unfold put4 at 1, put2 at 1. unfold put4 at 1, put2 at 1 in Hr.
      rewrite read_year_digit by zdiv.
      rewrite Hr by lia. do 2 f_equal; lia.
    + destruct (Z.ltb_spec y 0); [lia |].
      rewrite read_year_plus, read_put6 by lia. do 2 f_equal; lia.
  - destruct (Z.ltb_spec y 0); [| lia].
    rewrite read_year_minus, read_put6 by lia. cbn [obind]. do 2 f_equal; lia.
Qed.

(** A year has [DaysInYear] days. *)
Lemma DayFromYear_succ (y : Z) :
  DayFromYear (y + 1) = DayFromYear y + DaysInYear y.
Proof.
  unfold DayFromYear, DaysInYear.
  destruct (Z.eqb_spec (y mod 4) 0); cbn [negb];
    [destruct (Z.eqb_spec (y mod 100) 0); cbn [negb];
       [destruct (Z.eqb_spec (y mod 400) 0); cbn [negb] | ] | ]; zdiv.
Qed.

Lemma DaysInYear_cases (y : Z) : DaysInYear y = 365 \/ DaysInYear y = 366.
Proof.
  unfold DaysInYear.
  destruct (negb (y mod 4 =? 0)), (negb (y mod 100 =? 0)), (negb (y mod 400 =? 0)); auto.
Qed.

Lemma YearFromDay_spec (d : Z) :
  DayFromYear (YearFromDay d) <= d < DayFromYear (YearFromDay d + 1).
Proof.
  unfold YearFromDay.
  set (y0 := 1970 + (400 * d) / 146097).
  destruct (Z.ltb_spec d (DayFromYear y0)).
  - unfold DayFromYear in *. subst y0. zdiv.
  - destruct (Z.leb_spec (DayFromYear (y0 + 1)) d).
    + unfold DayFromYear in *. subst y0. zdiv.
    + lia.
Qed.

Lemma YearFromDay_bound (d : Z) :
  -100000000 <= d <= 100000000 -> -1000000 < YearFromDay d < 1000000.
Proof.
  intros Hd. unfold YearFromDay.
  set (y0 := 1970 + (400 * d) / 146097).
  assert (-1000000 < y0 - 1 /\ y0 + 1 < 1000000) by (subst y0; zdiv).
  destruct (d <? DayFromYear y0); [lia |].
  destruct (DayFromYear (y0 + 1) <=? d); lia.
Qed.

Lemma DayWithinYear_bound (t : Z) :
  0 <= DayWithinYear t < 365 + InLeapYear t.
Proof.
  unfold DayWithinYear, InLeapYear, YearFromTime.
  pose proof (YearFromDay_spec (Day t)) as H.
  rewrite DayFromYear_succ in H. lia.
Qed.

Lemma InLeapYear_cases (t : Z) : InLeapYear t = 0 \/ InLeapYear t = 1.
Proof. unfold InLeapYear. destruct (DaysInYear_cases (YearFromTime t)); lia. Qed.

Lemma MonthFromTime_bound (t : Z) : 0 <= MonthFromTime t <= 11.
Proof.
  unfold MonthFromTime.
  repeat match goal with |- context [if ?b then _ else _] => destruct b end; lia.
Qed.

Lemma DateFromTime_bound (t : Z) : 1 <= DateFromTime t <= 31.
Proof.
  unfold DateFromTime, MonthFromTime.
  pose proof (DayWithinYear_bound t) as Hd.
  destruct (InLeapYear_cases t) as [Hl | Hl]; rewrite Hl in *;
    repeat match goal with
           | |- context [if ?a <? ?b then _ else _] => destruct (Z.ltb_spec a b)
           end;
    cbn; lia.
Qed.

Lemma MakeDay_fields (t : Z) :
  MakeDay (YearFromTime t) (MonthFromTime t) (DateFromTime t) = Day t.
Proof.
  pose proof (MonthFromTime_bound t) as Hm.
  unfold MakeDay.
  replace (MonthFromTime t / 12) with 0 by zdiv.
  replace (MonthFromTime t mod 12) with (MonthFromTime t) by zdiv.
  rewrite Z.add_0_r. fold (InLeapYear t).
  unfold DateFromTime, DayWithinYear. lia.
Qed.

Lemma MakeTime_fields (t : Z) :
  MakeTime (HourFromTime t) (MinFromTime t) (SecFromTime t) (msFromTime t)
  = TimeWithinDay t.
Proof.
  unfold MakeTime, HourFromTime, MinFromTime, SecFromTime, msFromTime, TimeWithinDay,
    msPerHour, msPerMinute, msPerSecond, msPerDay.
  zdiv.
Qed.

Lemma MakeDate_fields (t : Z) :
  MakeDate (Day t) (TimeWithinDay t) = t.
Proof. unfold MakeDate, Day, TimeWithinDay, msPerDay. zdiv. Qed.

Lemma expect_same (c : ascii) (s : string) : expect c (String c s) = Some s.
Proof. unfold expect. rewrite Ascii.eqb_refl. reflexivity. Qed.

Lemma read_fields_ISOString (t : Z) :
  Z.abs t <= maxTime -> read_fields (ISOString t) = Some t.
Proof.
  intros Ht. unfold read_fields, ISOString.
  assert (Hday : -100000000 <= Day t <= 100000000)
    by (unfold Day, msPerDay, maxTime in *; zdiv).
  pose proof (MonthFromTime_bound t) as Hm.
  pose proof (DateFromTime_bound t) as Hd.
  rewrite read_putYear by (apply YearFromDay_bound; exact Hday).
  cbn [obind]. rewrite expect_same. cbn [obind].
  rewrite read_put2 by lia.
  cbn [obind]. rewrite expect_same. cbn [obind].
  rewrite read_put2 by lia.
  cbn [obind]. rewrite expect_same. cbn [obind].
  rewrite read_put2 by (unfold HourFromTime; zdiv).
  cbn [obind]. rewrite expect_same. cbn [obind].
  rewrite read_put2 by (unfold MinFromTime; zdiv).
  cbn [obind]. rewrite expect_same. cbn [obind].
  rewrite read_put2 by (unfold SecFromTime; zdiv).
  cbn [obind]. rewrite expect_same. cbn [obind].
  rewrite read_put3 by (unfold msFromTime, msPerSecond; zdiv).
  cbn [obind]. rewrite String.eqb_refl.
  f_equal.
  replace (100 * 0 + (MonthFromTime t + 1) - 1) with (MonthFromTime t) by lia.
  replace (100 * 0 + DateFromTime t) with (DateFromTime t) by lia.
  replace (100 * 0 + HourFromTime t) with (HourFromTime t) by lia.
  replace (100 * 0 + MinFromTime t) with (MinFromTime t) by lia.
  replace (100 * 0 + SecFromTime t) with (SecFromTime t) by lia.
  replace (1000 * 0 + msFromTime t) with (msFromTime t) by lia.
  rewrite MakeDay_fields, MakeTime_fields. apply MakeDate_fields.
Qed.

Lemma parse_ISOString_ISOString (t : Z) :
  Z.abs t <= maxTime -> parse_ISOString (ISOString t) = Some t.
Proof.
  intros Ht. unfold parse_ISOString. rewrite read_fields_ISOString by exact Ht.
  rewrite String.eqb_refl. apply Z.leb_le in Ht. rewrite Ht. reflexivity.
Qed.

End JSDateFacts.

(** ** Running method bodies *)

Module AsyncFacts.
Section Run.
Context {This Shown : Type}.
Variable env : Env This Shown.

Lemma run_bind {A B : Type} (p : prog This Shown A) (f : A -> prog This Shown B)
  (w : World This Shown) :
  run env (bind p f) w =
  match run env p w with
  | (w1, Normal a) => run env (f a) w1
  | (w1, Thrown e) => (w1, Thrown e)
  end.
Proof.
  revert w. induction p as [a | e | k IH | s k IH | c k IH | k IH | req k IH | res k IH];
    intros w; cbn [bind run]; auto.
Qed.

Lemma run_try_catch {A : Type} (p : prog This Shown A) (h : exn -> prog This Shown A)
  (w : World This Shown) :
  run env (try_catch p h) w =
  match run env p w with
  | (w1, Normal a) => (w1, Normal a)
  | (w1, Thrown e) => run env (h e) w1
  end.
Proof.
  revert w. induction p as [a | e | k IH | s k IH | c k IH | k IH | req k IH | res k IH];
    intros w; cbn [try_catch run]; auto.
Qed.

Lemma run_lift {A : Type} (c : completion A) (w : World This Shown) :
  run env (lift c : prog This Shown A) w = (w, c).
Proof. destruct c; reflexivity. Qed.

(** A call taken up at once, when the outside answers a request the same
    whether or not it counts the request itself among those sent. *)
Lemma finish_start {A : Type} (p : prog This Shown A) (w : World This Shown) :
  (forall w' req, fetch env (send req w') req = fetch env w' req) ->
  finish env (start env p w) = run env p w.
Proof.
  intros Hfetch.
  revert w. induction p as [a | e | k IH | s k IH | c k IH | k IH | req k IH | res k IH];
    intros w; cbn [start run finish]; auto.
  rewrite Hfetch. reflexivity.
Qed.

(** Before the first await at most one request is sent. *)
Lemma start_network {A : Type} (p : prog This Shown A) (w : World This Shown) :
  network (fst (start env p w)) = network w
  \/ exists req, network (fst (start env p w)) = (network w ++ [req])%list.
Proof.
  revert w. induction p as [a | e | k IH | s k IH | c k IH | k IH | req k IH | res k IH];
    intros w; cbn [start fst]; auto.
  - apply (IH (set_this s w)).
  - apply (IH (print c w)).
  - right. exists req. reflexivity.
Qed.

Lemma keeps_this_run {A : Type} (p : prog This Shown A) :
  keeps_this p -> forall w, this (fst (run env p w)) = this w.
Proof.
  induction 1 as [a | e | k _ IH | c k _ IH | k _ IH | req k _ IH | res k _ IH];
    intros w; cbn [run fst]; auto.
  - rewrite IH. reflexivity.
  - rewrite IH. reflexivity.
Qed.

Lemma keeps_this_start {A : Type} (p : prog This Shown A) :
  keeps_this p -> forall w, this (fst (start env p w)) = this w.
Proof.
  induction 1 as [a | e | k _ IH | c k _ IH | k _ IH | req k _ IH | res k _ IH];
    intros w; cbn [start fst]; auto.
  rewrite IH. reflexivity.
Qed.

Lemma keeps_this_bind {A B : Type} (p : prog This Shown A) (f : A -> prog This Shown B) :
  keeps_this p -> (forall a, keeps_this (f a)) -> keeps_this (bind p f).
Proof.
  intros Hp Hf. induction Hp; cbn [bind]; auto; constructor; auto.
Qed.

Lemma keeps_this_lift {A : Type} (c : completion A) :
  keeps_this (lift c : prog This Shown A).
Proof. destruct c; constructor. Qed.

Lemma keeps_this_try_catch {A : Type} (p : prog This Shown A)
  (h : exn -> prog This Shown A) :
  keeps_this p -> (forall e, keeps_this (h e)) -> keeps_this (try_catch p h).
Proof.
  intros Hp Hh. induction Hp; cbn [try_catch]; auto; constructor; auto.
Qed.

Lemma keeps_this_console (m : console_method) (xs : list (console_arg Shown)) :
  keeps_this (console m xs : prog This Shown unit).
Proof. repeat constructor. Qed.

Lemma keeps_this_mapM {A B : Type} (f : A -> prog This Shown B) (xs : list A) :
  (forall x, keeps_this (f x)) -> keeps_this (mapM f xs).
Proof.
  intros Hf. induction xs as [| x rest IH]; cbn [mapM].
  - constructor.
  - apply keeps_this_bind; [apply Hf |]. intros y.
    apply keeps_this_bind; [exact IH |]. intros ys. constructor.
Qed.

Lemma keeps_this_forEach {A B : Type} (f : B -> A -> prog This Shown B)
  (xs : list A) (b : B) :
  (forall b x, keeps_this (f b x)) -> keeps_this (forEach f xs b).
Proof.
  intros Hf. revert b. induction xs as [| x rest IH]; intros b; cbn [forEach].
  - constructor.
  - apply keeps_this_bind; [apply Hf | exact IH].
Qed.

Lemma prints_nil (w : World This Shown) : prints [] w = w.
Proof. destruct w. unfold prints. cbn. rewrite app_nil_r. reflexivity. Qed.

Lemma prints_prints (cs ds : list (console_call Shown)) (w : World This Shown) :
  prints ds (prints cs w) = prints (cs ++ ds) w.
Proof. unfold prints. cbn. rewrite app_assoc. reflexivity. Qed.

Lemma print_prints (c : console_call Shown) (cs : list (console_call Shown))
  (w : World This Shown) :
  prints cs (print c w) = prints (c :: cs) w.
Proof. unfold prints, print. cbn. rewrite <- app_assoc. reflexivity. Qed.

(** Two loops whose bodies run alike run alike. *)
Lemma run_forEach_ext {A A' B : Type} (f : B -> A -> prog This Shown B)
  (g : B -> A' -> prog This Shown B) (h : A -> A') (xs : list A) :
  (forall b x w, In x xs -> run env (f b x) w = run env (g b (h x)) w) ->
  forall b w, run env (forEach f xs b) w = run env (forEach g (map h xs) b) w.
Proof.
  induction xs as [| x rest IH]; intros Hfg b w; cbn [forEach map].
  - reflexivity.
  - rewrite !run_bind, Hfg by (left; reflexivity).
    destruct (run env (g b (h x)) w) as [w1 [b1 | e]]; [| reflexivity].
    apply IH. intros b' x' w' Hin. apply Hfg. right. exact Hin.
Qed.

End Run.
End AsyncFacts.
Import AsyncFacts.

(** ** Person *)

Section PersonFacts.
Context `{Host} {This Shown : Type}.
Variable env : Env This Shown.

Lemma run_addMedication_room (med : Medication.t) (p : Person.t) (w : World This Shown) :
  (List.length (Person.medications p) < 5)%nat ->
  run env (Person.addMedication med p) w
  = (w, Normal {| Person.name := Person.name p;
                  Person.medications := Person.medications p ++ [med] |}).
Proof.
  intros Hlen. unfold Person.addMedication.
  destruct (Z.leb_spec 5 (Z.of_nat (List.length (Person.medications p)))); [lia |].
  reflexivity.
Qed.

Lemma run_addMedication_full (med : Medication.t) (p : Person.t) (who : string)
  (w : World This Shown) :
  (5 <= List.length (Person.medications p))%nat ->
  Person.name p = VStr who ->
  run env (Person.addMedication med p) w = (print (Wire.full_warning who) w, Normal p).
Proof.
  intros Hlen Hname. unfold Person.addMedication.
  destruct (Z.leb_spec 5 (Z.of_nat (List.length (Person.medications p)))); [| lia].
  rewrite Hname. reflexivity.
Qed.

(** Calls in a row on a person with room for all of them. *)
Lemma run_addMedications_room (meds : list Medication.t) :
  forall (p : Person.t) (w : World This Shown),
    (List.length (Person.medications p) + List.length meds <= 5)%nat ->
    run env (Calls.addMedications meds p) w
    = (w, Normal {| Person.name := Person.name p;
                    Person.medications := Person.medications p ++ meds |}).
Proof.
  unfold Calls.addMedications.
  induction meds as [| med rest IH]; intros p w Hlen; cbn [forEach run].
  - rewrite app_nil_r. destruct p; reflexivity.
  - cbn [List.length] in Hlen.
    rewrite run_bind, run_addMedication_room by lia.
    rewrite IH by (cbn [Person.medications]; rewrite length_app; cbn [List.length]; lia).
    cbn [Person.name Person.medications]. rewrite <- app_assoc. reflexivity.
Qed.

(** Calls in a row on a person with room for some of them. *)
Lemma run_addMedications (meds : list Medication.t) :
  forall (p : Person.t) (who : string) (w : World This Shown),
    Person.name p = VStr who ->
    (List.length (Person.medications p) <= 5)%nat ->
    run env (Calls.addMedications meds p) w
    = (prints (repeat (Wire.full_warning who)
                 (List.length (Person.medications p) + List.length meds - 5)) w,
       Normal {| Person.name := VStr who;
                 Person.medications := firstn 5 (Person.medications p ++ meds) |}).
Proof.
  unfold Calls.addMedications.
  induction meds as [| med rest IH]; intros p who w Hname Hlen; cbn [forEach].
  - replace (List.length (Person.medications p) + List.length (@nil Medication.t) - 5)%nat
      with 0%nat by (cbn [List.length]; lia).
    cbn [repeat run]. rewrite prints_nil, app_nil_r, firstn_all2 by exact Hlen.
    destruct p as [n ms]. cbn in Hname. subst n. reflexivity.
  - rewrite run_bind.
    destruct (Nat.eq_dec (List.length (Person.medications p)) 5) as [Hfull | Hroom].
    + rewrite (run_addMedication_full med p who) by (exact Hname || lia).
      rewrite (IH p who) by assumption.
      rewrite print_prints. f_equal.
      * replace (List.length (Person.medications p) + List.length (med :: rest) - 5)%nat
          with (S (List.length (Person.medications p) + List.length rest - 5))%nat
          by (cbn [List.length]; lia).
        reflexivity.
      * do 2 f_equal. rewrite !firstn_app, Hfull, Nat.sub_diag. reflexivity.
    + rewrite run_addMedication_room by lia.
      rewrite (IH _ who);
        [ | exact Hname
          | cbn [Person.medications]; rewrite length_app; cbn [List.length]; lia ].
      cbn [Person.medications Person.name].
      rewrite length_app, <- app_assoc. cbn [List.length app].
      replace (List.length (Person.medications p) + 1 + List.length rest - 5)%nat
        with (List.length (Person.medications p) + S (List.length rest) - 5)%nat by lia.
      reflexivity.
Qed.

End PersonFacts.

(** ** UserManager *)

Section UserManagerFacts.
Context `{Host}.
Variable env : Env UserManager.t (list Person.t).

Ltac keeps :=
  repeat first
    [ apply keeps_this_lift
    | apply keeps_this_console
    | apply keeps_this_bind
    | apply keeps_this_forEach
    | apply keeps_this_mapM
    | apply keeps_this_try_catch
    | progress intros
    | match goal with
      | |- keeps_this (if ?b then _ else _) => destruct b
      | |- keeps_this (match ?x with _ => _ end) => destruct x
      end
    | constructor ].

Lemma keeps_this_addMedication {This Shown : Type} (med : Medication.t) (p : Person.t) :
  keeps_this (Person.addMedication med p : prog This Shown Person.t).
Proof. unfold Person.addMedication. keeps. Qed.

Lemma keeps_this_Medication_new {This Shown : Type} (n f t : value)
  (d : Medication.date_arg) :
  keeps_this (Medication.new n f t d : prog This Shown Medication.t).
Proof. unfold Medication.new. keeps. Qed.

Lemma keeps_this_person_of_record (p : value) :
  keeps_this (UserManager.person_of_record p).
Proof.
  unfold UserManager.person_of_record, UserManager.attach_medication.
  keeps; first [apply keeps_this_Medication_new | apply keeps_this_addMedication].
Qed.

Lemma keeps_this_savePersonToServer (person : Person.t) :
  keeps_this (UserManager.savePersonToServer person).
Proof.
  unfold UserManager.savePersonToServer, UserManager.savePersonToServer_try,
    UserManager.savePersonToServer_catch.
  keeps.
Qed.

(** A [try] whose [catch] only logs: the call ends normally either way. *)
Lemma run_logging_catch (body : UserManager.action unit) (label : string)
  (w : World UserManager.t (list Person.t)) :
  run env (try_catch body
             (fun err => console console_error [CStr label; CStr (message err)])) w
  = match run env body w with
    | (w1, Normal a) => (w1, Normal a)
    | (w1, Thrown e) => (print (Calls.caught label e) w1, Normal tt)
    end.
Proof.
  rewrite run_try_catch.
  destruct (run env body w) as [w1 [a | e]]; reflexivity.
Qed.

Lemma run_savePersonToServer_settles (person : Person.t)
  (w : World UserManager.t (list Person.t)) :
  snd (run env (UserManager.savePersonToServer person) w) = Normal tt.
Proof.
  unfold UserManager.savePersonToServer, UserManager.savePersonToServer_catch.
  rewrite run_logging_catch.
  destruct (run env (UserManager.savePersonToServer_try person) w) as [w1 [[] | e]];
    reflexivity.
Qed.

Lemma run_addPerson_full (person : Person.t) (w : World UserManager.t (list Person.t)) :
  (5 <= List.length (UserManager.people (this w)))%nat ->
  start env (UserManager.addPerson person) w
  = (print Calls.people_warning w, Settled (Normal tt))
  /\ run env (UserManager.addPerson person) w
     = (print Calls.people_warning w, Normal tt).
Proof.
  intros Hlen. unfold UserManager.addPerson. cbn [start run].
  destruct (Z.leb_spec 5 (Z.of_nat (List.length (UserManager.people (this w)))));
    [| lia].
  split; reflexivity.
Qed.

Lemma run_addPerson_room (person : Person.t) (w : World UserManager.t (list Person.t)) :
  (List.length (UserManager.people (this w)) < 5)%nat ->
  let pushed :=
    set_this (UserManager.set_people (UserManager.people (this w) ++ [person])%list (this w)) w in
  start env (UserManager.addPerson person) w
  = start env (UserManager.savePersonToServer person) pushed
  /\ run env (UserManager.addPerson person) w
     = run env (UserManager.savePersonToServer person) pushed.
Proof.
  intros Hlen. unfold UserManager.addPerson. cbn [start run].
  destruct (Z.leb_spec 5 (Z.of_nat (List.length (UserManager.people (this w)))));
    [lia |].
  split; reflexivity.
Qed.

(** What a call of [addPerson] leaves: the list with the person at its end
    when there was room, the list as it was otherwise. *)
Lemma run_addPerson_people (person : Person.t) (w : World UserManager.t (list Person.t)) :
  snd (run env (UserManager.addPerson person) w) = Normal tt
  /\ UserManager.people (this (fst (run env (UserManager.addPerson person) w)))
     = if (List.length (UserManager.people (this w)) <? 5)%nat
       then (UserManager.people (this w) ++ [person])%list
       else UserManager.people (this w).
Proof.
  destruct (Nat.ltb_spec (List.length (UserManager.people (this w))) 5) as [Hroom | Hfull].
  - destruct (run_addPerson_room person w Hroom) as [_ ->].
    split; [apply run_savePersonToServer_settles |].
    rewrite keeps_this_run by apply keeps_this_savePersonToServer.
    reflexivity.
  - destruct (run_addPerson_full person w Hfull) as [_ ->]. split; reflexivity.
Qed.

Lemma run_addPeople (persons : list Person.t) :
  forall w : World UserManager.t (list Person.t),
    (List.length (UserManager.people (this w)) <= 5)%nat ->
    snd (run env (Calls.addPeople persons) w) = Normal tt
    /\ UserManager.people (this (fst (run env (Calls.addPeople persons) w)))
       = firstn 5 (UserManager.people (this w) ++ persons)%list.
Proof.
  unfold Calls.addPeople.
  induction persons as [| person rest IH]; intros w Hlen; cbn [forEach run fst snd].
  - rewrite app_nil_r, firstn_all2 by exact Hlen. split; reflexivity.
  - rewrite run_bind.
    destruct (run_addPerson_people person w) as [Hr Hp].
    destruct (run env (UserManager.addPerson person) w) as [w1 r].
    cbn [fst snd] in Hr, Hp. subst r.
    destruct (Nat.ltb_spec (List.length (UserManager.people (this w))) 5) as [Hroom | Hfull].
    + destruct (IH w1) as [IHr IHp].
      { rewrite Hp, length_app. cbn [List.length]. lia. }
      split; [exact IHr |].
      rewrite IHp, Hp, <- app_assoc. reflexivity.
    + destruct (IH w1) as [IHr IHp]; [rewrite Hp; exact Hlen |].
      split; [exact IHr |].
      rewrite IHp, Hp.
      assert (Hfive : List.length (UserManager.people (this w)) = 5%nat) by lia.
      rewrite !firstn_app, Hfive, Nat.sub_diag. reflexivity.
Qed.

(** A call that has given up control leaves [this] alone when it goes on,
    whatever happened in between. *)
Lemma paused_keeps_this {A : Type} (p : UserManager.action A) :
  keeps_this p ->
  forall (w w1 : World UserManager.t (list Person.t)) (pd : paused _ _ A),
    start env p w = (w1, pd) ->
    forall (env' : Env UserManager.t (list Person.t))
           (w2 : World UserManager.t (list Person.t)),
      this (fst (finish env' (w2, pd))) = this w2.
Proof.
  induction 1 as [a | e | k Hk IH | c k Hk IH | k Hk IH | req k Hk IH | res k Hk IH];
    intros w w1 pd Hstart env' w2; cbn [start] in Hstart.
  - injection Hstart as _ <-. reflexivity.
  - injection Hstart as _ <-. reflexivity.
  - exact (IH _ _ _ _ Hstart env' w2).
  - exact (IH _ _ _ Hstart env' w2).
  - exact (IH _ _ _ _ Hstart env' w2).
  - injection Hstart as _ <-. cbn [finish].
    rewrite keeps_this_run by apply Hk. reflexivity.
  - injection Hstart as _ <-. cbn [finish].
    rewrite keeps_this_run by apply Hk. reflexivity.
Qed.

(** X17.  What is left of a call of [addPerson] once it has given up
    control never assigns to [this]: whenever and however it is resumed,
    the people are those of the moment. *)
Lemma keeps_this_addPerson_rest (person : Person.t)
  (w w1 : World UserManager.t (list Person.t)) (pd : paused _ _ unit) :
  start env (UserManager.addPerson person) w = (w1, pd) ->
  forall (env' : Env UserManager.t (list Person.t))
         (w2 : World UserManager.t (list Person.t)),
    this (fst (finish env' (w2, pd))) = this w2.
Proof.
  unfold UserManager.addPerson. cbn [start].
  destruct (5 <=? Z.of_nat (List.length (UserManager.people (this w)))).
  - cbn [console start]. intros Hstart. injection Hstart as _ <-. reflexivity.
  - cbn [start]. intros Hstart.
    exact (paused_keeps_this _ (keeps_this_savePersonToServer person) _ _ _ Hstart).
Qed.

(** Calls made without awaiting: the people are the first five given, and
    nothing of it depends on the replies still to come. *)
Lemma fireAddPerson_people (persons : list Person.t) :
  forall w : World UserManager.t (list Person.t),
    (List.length (UserManager.people (this w)) <= 5)%nat ->
    UserManager.people (this (Calls.fireAddPerson env persons w))
    = firstn 5 (UserManager.people (this w) ++ persons)%list.
Proof.
  unfold Calls.fireAddPerson.
  induction persons as [| person rest IH]; intros w Hlen; cbn [fold_left].
  - rewrite app_nil_r, firstn_all2 by exact Hlen. reflexivity.
  - destruct (Nat.ltb_spec (List.length (UserManager.people (this w))) 5) as [Hroom | Hfull].
    + destruct (run_addPerson_room person w Hroom) as [Hstart _].
      cbv zeta in Hstart. rewrite Hstart.
      rewrite IH; rewrite keeps_this_start by apply keeps_this_savePersonToServer;
        cbn [set_this this UserManager.set_people UserManager.people].
      * rewrite <- app_assoc. reflexivity.
      * rewrite length_app. cbn [List.length]. lia.
    + destruct (run_addPerson_full person w Hfull) as [Hstart _].
      rewrite Hstart. cbn [fst]. rewrite IH by exact Hlen.
      cbn [print this].
      assert (Hfive : List.length (UserManager.people (this w)) = 5%nat) by lia.
      rewrite !firstn_app, Hfive, Nat.sub_diag. reflexivity.
Qed.

End UserManagerFacts.

(** ** Loading: records to people *)

Section LoadFacts.
Context `{Host}.
Variable env : Env UserManager.t (list Person.t).

Lemma run_attach_medication (person : Person.t) (m : value)
  (w : World UserManager.t (list Person.t)) :
  Wire.medication_record m = true ->
  run env (UserManager.attach_medication person m) w
  = run env (Person.addMedication (Wire.medication_of_record m) person) w.
Proof.
  unfold Wire.medication_record. intros Hm.
  destruct m as [| | b | n | s | items | props]; try discriminate Hm.
  cbn [Wire.is_object andb Wire.field] in Hm.
  unfold UserManager.attach_medication, Wire.medication_of_record.
  cbn [get lift bind Wire.field].
  destruct (lookup "refillDate" props) as [| | b | n | s | items | props'];
    try discriminate Hm.
  cbn [Date_new lift bind Wire.text_of].
  unfold Medication.new.
  destruct (lookup "taken" props); reflexivity.
Qed.

Lemma run_person_of_record (p : value) (w : World UserManager.t (list Person.t)) :
  Wire.person_record p = true ->
  run env (UserManager.person_of_record p) w
  = (prints (Wire.excess_warnings p) w, Normal (Wire.person_of p)).
Proof.
  unfold Wire.person_record. intros Hp.
  destruct p as [| | b | n | s | items | props]; try discriminate Hp.
  cbn [Wire.is_object andb Wire.field] in Hp.
  apply andb_prop in Hp. destruct Hp as [Hname Hmeds].
  unfold UserManager.person_of_record, Wire.person_of, Wire.excess_warnings,
    Wire.record_medications.
  cbn [get lift bind Wire.field].
  destruct (lookup "name" props) as [| | b | n | who | items | props'];
    try discriminate Hname.
  destruct (lookup "medications" props) as [| | b | n | s | ms | props'];
    try discriminate Hmeds.
  cbn [array_items lift bind Wire.text_of].
  rewrite (run_forEach_ext env UserManager.attach_medication
             (fun person med => Person.addMedication med person)
             Wire.medication_of_record).
  - pose proof (run_addMedications env (map Wire.medication_of_record ms)
                  (Person.new (VStr who)) who w eq_refl) as Hrun.
    unfold Calls.addMedications in Hrun. rewrite Hrun by (cbn; lia).
    cbn [Person.new Person.medications List.length app Nat.add].
    rewrite length_map. reflexivity.
  - intros person m w' Hin. apply run_attach_medication.
    rewrite forallb_forall in Hmeds. apply Hmeds. exact Hin.
Qed.

Lemma run_mapM_person_of_record (records : list value) :
  forallb Wire.person_record records = true ->
  forall w : World UserManager.t (list Person.t),
    run env (mapM UserManager.person_of_record records) w
    = (prints (flat_map Wire.excess_warnings records) w,
       Normal (map Wire.person_of records)).
Proof.
  induction records as [| p rest IH]; intros Hall w; cbn [mapM flat_map map run].
  - rewrite prints_nil. reflexivity.
  - cbn [forallb] in Hall. apply andb_prop in Hall. destruct Hall as [Hp Hrest].
    rewrite run_bind, run_person_of_record by exact Hp.
    rewrite run_bind, IH by exact Hrest.
    cbn [run]. rewrite prints_prints. reflexivity.
Qed.

Lemma run_loadAllPeople_success (w : World UserManager.t (list Person.t))
  (url : string) (res : Response) (records : list value) :
  UserManager.users_url (this w) = Normal url ->
  fetch env w (Calls.get_users url) = Normal res ->
  ok res = true ->
  json res = Normal (VArr records) ->
  forallb Wire.person_record records = true ->
  run env UserManager.loadAllPeople w = (Calls.loaded_world url records w, Normal tt).
Proof.
  intros Hurl Hfetch Hok Hjson Hrecords.
  unfold UserManager.loadAllPeople, UserManager.loadAllPeople_catch.
  rewrite run_logging_catch.
  unfold UserManager.loadAllPeople_try. cbn [run].
  rewrite Hurl. cbn [lift bind run]. fold (Calls.get_users url).
  rewrite Hfetch. cbn [lift bind]. rewrite Hok. cbn [negb run].
  rewrite Hjson. cbn [lift bind array_items].
  rewrite run_bind, run_mapM_person_of_record by exact Hrecords.
  reflexivity.
Qed.

End LoadFacts.

(** ** Writing a person and reading the record back *)

Section RoundTripFacts.
Context `{Host}.

Lemma medications_payload_valid (ms : list Medication.t) :
  forallb (fun m => Wire.date_valid (Medication.refillDate m)) ms = true ->
  UserManager.medications_payload ms = Normal (map Wire.record_of_medication ms).
Proof.
  induction ms as [| m rest IH]; intros Hvalid; cbn [UserManager.medications_payload map].
  - reflexivity.
  - cbn [forallb] in Hvalid. apply andb_prop in Hvalid. destruct Hvalid as [Hm Hrest].
    rewrite IH by exact Hrest.
    unfold UserManager.medication_payload, Wire.record_of_medication.
    destruct (Medication.refillDate m); [reflexivity | discriminate Hm].
Qed.

Lemma person_payload_valid (person : Person.t) :
  Wire.dates_valid person = true ->
  UserManager.person_payload person = Normal (Wire.record_of_person person).
Proof.
  intros Hvalid. unfold UserManager.person_payload.
  rewrite medications_payload_valid by exact Hvalid. reflexivity.
Qed.

Lemma JSON_echo_record_of_medication (m : Medication.t) :
  Wire.medication_typed m = true ->
  JSON_echo (Wire.record_of_medication m) = Wire.record_of_medication m.
Proof.
  unfold Wire.medication_typed, Wire.record_of_medication. intros Ht.
  destruct (Medication.name m); try discriminate Ht.
  destruct (Medication.frequencyPerDay m); try discriminate Ht.
  destruct (Medication.taken m); try discriminate Ht.
  reflexivity.
Qed.

Lemma JSON_echo_records_of_medications (ms : list Medication.t) :
  forallb Wire.medication_typed ms = true ->
  map (fun x => match x with VUndefined => VNull | _ => JSON_echo x end)
      (map Wire.record_of_medication ms)
  = map Wire.record_of_medication ms.
Proof.
  induction ms as [| m rest IH]; intros Hmeds; cbn [map]; [reflexivity |].
  cbn [forallb] in Hmeds. apply andb_prop in Hmeds. destruct Hmeds as [Hm Hrest].
  rewrite IH by exact Hrest. f_equal.
  apply (JSON_echo_record_of_medication m Hm).
Qed.

Lemma JSON_echo_record_of_person (person : Person.t) :
  Wire.person_typed person = true ->
  JSON_echo (Wire.record_of_person person) = Wire.record_of_person person.
Proof.
  unfold Wire.person_typed, Wire.record_of_person. intros Ht.
  apply andb_prop in Ht. destruct Ht as [Hname Hmeds].
  destruct (Person.name person); try discriminate Hname.
  cbn [JSON_echo]. rewrite JSON_echo_records_of_medications by exact Hmeds.
  reflexivity.
Qed.

Lemma medication_of_record_of_medication (m : Medication.t) :
  Wire.medication_typed m = true ->
  Wire.date_valid (Medication.refillDate m) = true ->
  Wire.medication_of_record (Wire.record_of_medication m) = m.
Proof.
  unfold Wire.medication_typed. intros Ht Hd.
  destruct m as [n f t d]. cbn [Medication.name Medication.frequencyPerDay
    Medication.taken Medication.refillDate] in *.
  unfold Wire.medication_of_record, Wire.record_of_medication.
  cbn [Wire.field Medication.name Medication.frequencyPerDay Medication.taken
       Medication.refillDate].
  destruct t; try (rewrite !andb_false_r in Ht; discriminate Ht).
  destruct d as [tv |]; [| discriminate Hd].
  cbn [Wire.date_valid] in Hd. apply Z.leb_le in Hd.
  cbn [lookup String.eqb Ascii.eqb Bool.eqb Wire.text_of Wire.iso_text].
  unfold Date_parse. rewrite JSDateFacts.parse_ISOString_ISOString by exact Hd.
  reflexivity.
Qed.

Lemma person_record_record_of_person (person : Person.t) :
  Wire.person_typed person = true ->
  Wire.person_record (Wire.record_of_person person) = true.
Proof.
  unfold Wire.person_typed. intros Ht.
  apply andb_prop in Ht. destruct Ht as [Hname _].
  unfold Wire.person_record, Wire.record_of_person.
  cbn [Wire.is_object Wire.field lookup String.eqb Ascii.eqb Bool.eqb andb].
  rewrite Hname. cbn [andb].
  induction (Person.medications person) as [| m rest IH]; cbn [map forallb];
    [reflexivity |].
  rewrite IH. reflexivity.
Qed.

Lemma person_of_record_of_person (person : Person.t) :
  Wire.person_typed person = true ->
  Wire.dates_valid person = true ->
  (List.length (Person.medications person) <= 5)%nat ->
  Wire.person_of (Wire.record_of_person person) = person
  /\ Wire.excess_warnings (Shown := list Person.t) (Wire.record_of_person person) = [].
Proof.
  unfold Wire.person_typed, Wire.dates_valid. intros Ht Hd Hlen.
  apply andb_prop in Ht. destruct Ht as [_ Hmeds].
  destruct person as [n ms]. cbn [Person.name Person.medications] in *.
  unfold Wire.person_of, Wire.excess_warnings, Wire.record_medications,
    Wire.record_of_person.
  cbn [Wire.field lookup String.eqb Ascii.eqb Bool.eqb Person.name Person.medications].
  rewrite length_map.
  replace (List.length ms - 5)%nat with 0%nat by lia.
  split; [| reflexivity].
  f_equal. rewrite firstn_all2 by (rewrite !length_map; exact Hlen).
  rewrite map_map.
  clear Hlen. induction ms as [| m rest IH]; cbn [map]; [reflexivity |].
  cbn [forallb] in Hmeds, Hd.
  apply andb_prop in Hmeds. destruct Hmeds as [Hm Hrest].
  apply andb_prop in Hd. destruct Hd as [Hdm Hdrest].
  rewrite IH by assumption.
  rewrite medication_of_record_of_medication by assumption. reflexivity.
Qed.

Lemma same_medications_refl (ms : list Medication.t) :
  Forall2 Wire.same_medication ms ms.
Proof.
  induction ms as [| m rest IH]; constructor; [| exact IH].
  repeat split.
Qed.

End RoundTripFacts.

(** ** The remote operations when something goes wrong *)

Section FailureFacts.
Context `{Host}.
Variable env : Env UserManager.t (list Person.t).

Lemma ToString_number (n : Z) : ToString (VNum n) = Normal (Number_toString n).
Proof. reflexivity. Qed.

(** The [try] block of [loadAllPeople] assigns to [this.people] last: when
    it throws, [this] is as it was. *)
Lemma run_loadAllPeople_try_thrown (w w1 : World UserManager.t (list Person.t)) (e : exn) :
  run env UserManager.loadAllPeople_try w = (w1, Thrown e) -> this w1 = this w.
Proof.
  unfold UserManager.loadAllPeople_try. cbn [run].
  destruct (UserManager.users_url (this w)) as [url | e0]; cbn [lift bind run].
  2: { intros Hrun. injection Hrun as <- _. reflexivity. }
  destruct (fetch env w _) as [res | e0]; cbn [lift bind run].
  2: { intros Hrun. injection Hrun as <- _. reflexivity. }
  destruct (ok res); cbn [negb lift bind run ToString].
  2: { intros Hrun. injection Hrun as <- _. reflexivity. }
  destruct (json res) as [data | e0]; cbn [lift bind run].
  2: { intros Hrun. injection Hrun as <- _. reflexivity. }
  destruct (array_items data "data" "map") as [records | e0]; cbn [lift bind run].
  2: { intros Hrun. injection Hrun as <- _. reflexivity. }
  rewrite run_bind.
  pose proof (keeps_this_run env (mapM UserManager.person_of_record records)
                (keeps_this_mapM _ _ keeps_this_person_of_record)
                (send {| url := url; method := "GET"; headers := []; body := None |} w))
    as Hkeep.
  destruct (run env (mapM UserManager.person_of_record records) _) as [w2 [loaded | e0]].
  - cbn [run console]. intros Hrun. discriminate Hrun.
  - intros Hrun. injection Hrun as <- _. exact Hkeep.
Qed.

Section Load.
Variable w : World UserManager.t (list Person.t).
Variable url : string.
Hypothesis Hurl : UserManager.users_url (this w) = Normal url.

Lemma run_loadAllPeople_try_transport (e : exn) :
  fetch env w (Calls.get_users url) = Thrown e ->
  run env UserManager.loadAllPeople_try w = (send (Calls.get_users url) w, Thrown e).
Proof.
  intros Hfetch. unfold UserManager.loadAllPeople_try. cbn [run].
  rewrite Hurl. cbn [lift bind run]. fold (Calls.get_users url).
  rewrite Hfetch. reflexivity.
Qed.

Lemma run_loadAllPeople_try_status (res : Response) :
  fetch env w (Calls.get_users url) = Normal res ->
  ok res = false ->
  run env UserManager.loadAllPeople_try w
  = (send (Calls.get_users url) w,
     Thrown (new_exn Error ("Error loading data: " ++ Number_toString (status res)))).
Proof.
  intros Hfetch Hok. unfold UserManager.loadAllPeople_try. cbn [run].
  rewrite Hurl. cbn [lift bind run]. fold (Calls.get_users url).
  rewrite Hfetch. cbn [lift bind]. rewrite Hok. reflexivity.
Qed.

Lemma run_loadAllPeople_try_body (res : Response) (e : exn) :
  fetch env w (Calls.get_users url) = Normal res ->
  ok res = true ->
  json res = Thrown e ->
  run env UserManager.loadAllPeople_try w = (send (Calls.get_users url) w, Thrown e).
Proof.
  intros Hfetch Hok Hjson. unfold UserManager.loadAllPeople_try. cbn [run].
  rewrite Hurl. cbn [lift bind run]. fold (Calls.get_users url).
  rewrite Hfetch. cbn [lift bind]. rewrite Hok. cbn [negb run].
  rewrite Hjson. reflexivity.
Qed.

Lemma run_clearAllDataOnServer_completed (res : Response) :
  fetch env w (Calls.delete_users url) = Normal res ->
  run env UserManager.clearAllDataOnServer w
  = (print Calls.cleared_call
       (set_this (UserManager.set_people [] (this w))
          (send (Calls.delete_users url) w)),
     Normal tt).
Proof.
  intros Hfetch.
  unfold UserManager.clearAllDataOnServer, UserManager.clearAllDataOnServer_catch.
  rewrite run_logging_catch.
  unfold UserManager.clearAllDataOnServer_try. cbn [run].
  rewrite Hurl. cbn [lift bind run]. fold (Calls.delete_users url).
  rewrite Hfetch. reflexivity.
Qed.

Lemma run_clearAllDataOnServer_transport (e : exn) :
  fetch env w (Calls.delete_users url) = Thrown e ->
  run env UserManager.clearAllDataOnServer w
  = (print (Calls.caught "Failed to clear data:" e) (send (Calls.delete_users url) w),
     Normal tt).
Proof.
  intros Hfetch.
  unfold UserManager.clearAllDataOnServer, UserManager.clearAllDataOnServer_catch.
  rewrite run_logging_catch.
  unfold UserManager.clearAllDataOnServer_try. cbn [run].
  rewrite Hurl. cbn [lift bind run]. fold (Calls.delete_users url).
  rewrite Hfetch. reflexivity.
Qed.

Variable person : Person.t.
Variable payload : value.
Hypothesis Hpayload : UserManager.person_payload person = Normal payload.

Lemma run_savePersonToServer_try_transport (e : exn) :
  fetch env w (Calls.post_users url payload) = Thrown e ->
  run env (UserManager.savePersonToServer_try person) w
  = (send (Calls.post_users url payload) w, Thrown e).
Proof.
  intros Hfetch. unfold UserManager.savePersonToServer_try. cbn [run].
  rewrite Hurl. cbn [lift bind run]. rewrite Hpayload. cbn [lift bind run].
  fold (Calls.post_users url payload). rewrite Hfetch. reflexivity.
Qed.

Lemma run_savePersonToServer_try_status (res : Response) :
  fetch env w (Calls.post_users url payload) = Normal res ->
  ok res = false ->
  run env (UserManager.savePersonToServer_try person) w
  = (send (Calls.post_users url payload) w,
     Thrown (new_exn Error ("Error saving person: " ++ Number_toString (status res)))).
Proof.
  intros Hfetch Hok. unfold UserManager.savePersonToServer_try. cbn [run].
  rewrite Hurl. cbn [lift bind run]. rewrite Hpayload. cbn [lift bind run].
  fold (Calls.post_users url payload). rewrite Hfetch. cbn [lift bind].
  rewrite Hok. reflexivity.
Qed.
End Load.

Lemma keeps_this_listAll : keeps_this UserManager.listAll.
Proof.
  unfold UserManager.listAll. constructor. intros this.
  apply keeps_this_forEach. intros [] p.
  unfold Person.listMedications.
  repeat first
    [ apply keeps_this_lift | apply keeps_this_console | apply keeps_this_bind
    | apply keeps_this_forEach | progress intros | constructor ];
  unfold Person.listMedication;
  repeat first
    [ apply keeps_this_lift | apply keeps_this_console | apply keeps_this_bind
    | progress intros | constructor ].
Qed.

End FailureFacts.

(** ** The cap on medications *)

Section MedicationCap.
Context `{Host} {This Shown : Type}.
Variable env : Env This Shown.

(** C8.  Calls of [addMedication] in a row on a new person: up to five
    calls leave exactly the medications given, in the order given, and
    write nothing to the console; for any number of calls on a person
    called [who] the person ends with the first five and the console gets
    one warning for each call after the fifth; and a call on a person who
    already has five medications leaves the person as it was and writes
    the warning that names the person. *)
Theorem addMedication_capped_at_five (w : World This Shown) :
  (forall (name : value) (meds : list Medication.t),
      (List.length meds <= 5)%nat ->
      run env (Calls.addMedications meds (Person.new name)) w
      = (w, Normal {| Person.name := name; Person.medications := meds |}))
  /\ (forall (who : string) (meds : list Medication.t),
        run env (Calls.addMedications meds (Person.new (VStr who))) w
        = (prints (repeat (Wire.full_warning who) (List.length meds - 5)) w,
           Normal {| Person.name := VStr who;
                     Person.medications := firstn 5 meds |}))
  /\ (forall (who : string) (person : Person.t) (med : Medication.t),
        Person.name person = VStr who ->
        (5 <= List.length (Person.medications person))%nat ->
        run env (Person.addMedication med person) w
        = (print (Wire.full_warning who) w, Normal person)).
Proof.
  split; [| split].
  - intros name meds Hlen.
    rewrite run_addMedications_room by (cbn; lia). reflexivity.
  - intros who meds.
    rewrite (run_addMedications env meds (Person.new (VStr who)) who w eq_refl)
      by (cbn; lia).
    reflexivity.
  - intros who person med Hname Hlen.
    apply run_addMedication_full; assumption.
Qed.

End MedicationCap.

(** ** The cap on people *)

Section PeopleCap.
Context `{Host}.
Variable env : Env UserManager.t (list Person.t).

(** C9.  Calls of [addPerson] in a row on a manager without people: up to
    five awaited calls leave exactly the people given; any number of calls,
    awaited or not, leaves the first five; and a call on a manager that
    already has five people ends at once, before any await, with the
    warning written, the people as they were and nothing sent. *)
Theorem addPerson_capped_at_five :
  (forall (w : World UserManager.t (list Person.t)) (persons : list Person.t),
      UserManager.people (this w) = [] ->
      (List.length persons <= 5)%nat ->
      snd (run env (Calls.addPeople persons) w) = Normal tt
      /\ UserManager.people (this (fst (run env (Calls.addPeople persons) w)))
         = persons)
  /\ (forall (w : World UserManager.t (list Person.t)) (persons : list Person.t),
        UserManager.people (this w) = [] ->
        UserManager.people (this (fst (run env (Calls.addPeople persons) w)))
        = firstn 5 persons
        /\ UserManager.people (this (Calls.fireAddPerson env persons w))
           = firstn 5 persons)
  /\ (forall (w : World UserManager.t (list Person.t)) (person : Person.t),
        (5 <= List.length (UserManager.people (this w)))%nat ->
        start env (UserManager.addPerson person) w
        = (print Calls.people_warning w, Settled (Normal tt))
        /\ run env (UserManager.addPerson person) w
           = (print Calls.people_warning w, Normal tt)).
Proof.
  assert (Hany : forall (w : World UserManager.t (list Person.t)) persons,
             UserManager.people (this w) = [] ->
             snd (run env (Calls.addPeople persons) w) = Normal tt
             /\ UserManager.people (this (fst (run env (Calls.addPeople persons) w)))
                = firstn 5 persons).
  { intros w persons Hempty.
    destruct (run_addPeople env persons w) as [Hr Hp];
      [rewrite Hempty; cbn; lia |].
    rewrite Hempty in Hp. split; assumption. }
  split; [| split].
  - intros w persons Hempty Hlen.
    destruct (Hany w persons Hempty) as [Hr Hp].
    rewrite firstn_all2 in Hp by exact Hlen. split; assumption.
  - intros w persons Hempty. split; [apply (Hany w persons Hempty) |].
    rewrite fireAddPerson_people by (rewrite Hempty; cbn; lia).
    rewrite Hempty. reflexivity.
  - intros w person Hfull. apply run_addPerson_full. exact Hfull.
Qed.

(** C5.  A call of [addPerson] on a manager with fewer than five people.
    When the call first gives up control the person is at the end of the
    list.  The push to the server comes after the append: the whole of
    [savePersonToServer], the only place that calls [fetch], runs from the
    world [pushed], in which the person is already in the list and console
    and network are as before the call; whenever there is a request to
    send, it is sent from [pushed], and it is in that world that the
    network is asked for its reply; at the first await the world is
    [pushed] with that one request sent.  And when the call is over,
    whatever the network answered, it ended normally with the person still
    at the end of the list. *)
Theorem addPerson_appends_before_push
  (w : World UserManager.t (list Person.t)) (person : Person.t) :
  (List.length (UserManager.people (this w)) < 5)%nat ->
  let pushed :=
    set_this (UserManager.set_people
                (UserManager.people (this w) ++ [person])%list (this w)) w in
  UserManager.people (this (fst (start env (UserManager.addPerson person) w)))
  = (UserManager.people (this w) ++ [person])%list
  /\ (start env (UserManager.addPerson person) w
      = start env (UserManager.savePersonToServer person) pushed
      /\ run env (UserManager.addPerson person) w
         = run env (UserManager.savePersonToServer person) pushed)
  /\ (forall (url : string) (payload : value),
        UserManager.users_url (this w) = Normal url ->
        UserManager.person_payload person = Normal payload ->
        exists k : completion Response -> UserManager.action unit,
          start env (UserManager.addPerson person) w
          = (send (Calls.post_users url payload) pushed,
             OnFetch (Calls.post_users url payload) k)
          /\ run env (UserManager.addPerson person) w
             = run env (k (fetch env pushed (Calls.post_users url payload)))
                 (send (Calls.post_users url payload) pushed))
  /\ (snd (run env (UserManager.addPerson person) w) = Normal tt
      /\ UserManager.people (this (fst (run env (UserManager.addPerson person) w)))
         = (UserManager.people (this w) ++ [person])%list).
Proof.
  intros Hroom pushed.
  destruct (run_addPerson_room env person w Hroom) as [Hstart Hrun].
  cbv zeta in Hstart, Hrun. fold pushed in Hstart, Hrun.
  split; [| split; [| split; [| split]]].
  - rewrite Hstart.
    rewrite keeps_this_start by apply keeps_this_savePersonToServer. reflexivity.
  - split; [exact Hstart | exact Hrun].
  - intros url payload Hurl Hpayload.
    rewrite Hstart, Hrun.
    unfold UserManager.savePersonToServer, UserManager.savePersonToServer_try.
    cbn [try_catch start run].
    change (UserManager.users_url (this pushed)) with (UserManager.users_url (this w)).
    rewrite Hurl. cbn [lift bind try_catch start run].
    rewrite Hpayload. cbn [lift bind try_catch start run].
    eexists. split; reflexivity.
  - rewrite Hrun. apply run_savePersonToServer_settles.
  - rewrite Hrun.
    rewrite keeps_this_run by apply keeps_this_savePersonToServer. reflexivity.
Qed.

(** C6.  [savePersonToServer] never lets a failure out: the call, and with
    it [addPerson], ends normally whatever the network does; an error
    thrown in its [try] block is logged by the [catch] block and goes no
    further; a transport failure throws there the error the fetch was
    rejected with, and a response that is not ok an Error that carries the
    status code. *)
Theorem savePersonToServer_swallows_failures
  (w : World UserManager.t (list Person.t)) (person : Person.t) :
  snd (run env (UserManager.savePersonToServer person) w) = Normal tt
  /\ snd (run env (UserManager.addPerson person) w) = Normal tt
  /\ (forall (w1 : World UserManager.t (list Person.t)) (e : exn),
        run env (UserManager.savePersonToServer_try person) w = (w1, Thrown e) ->
        run env (UserManager.savePersonToServer person) w
        = (print (Calls.caught "Failed to save user:" e) w1, Normal tt))
  /\ (forall (url : string) (payload : value),
        UserManager.users_url (this w) = Normal url ->
        UserManager.person_payload person = Normal payload ->
        (forall e : exn,
            fetch env w (Calls.post_users url payload) = Thrown e ->
            run env (UserManager.savePersonToServer_try person) w
            = (send (Calls.post_users url payload) w, Thrown e))
        /\ (forall res : Response,
              fetch env w (Calls.post_users url payload) = Normal res ->
              ok res = false ->
              run env (UserManager.savePersonToServer_try person) w
              = (send (Calls.post_users url payload) w,
                 Thrown (new_exn Error
                           ("Error saving person: "
                            ++ Number_toString (status res)))))).
Proof.
  split; [| split; [| split]].
  - apply run_savePersonToServer_settles.
  - apply run_addPerson_people.
  - intros w1 e Htry.
    unfold UserManager.savePersonToServer, UserManager.savePersonToServer_catch.
    rewrite run_logging_catch, Htry. reflexivity.
  - intros url payload Hurl Hpayload. split.
    + intros e Hfetch.
      apply (run_savePersonToServer_try_transport env w url Hurl person payload Hpayload).
      exact Hfetch.
    + intros res Hfetch Hok.
      apply (run_savePersonToServer_try_status env w url Hurl person payload Hpayload);
        assumption.
Qed.

(** C4.  [clearAllDataOnServer]: when the DELETE request completes, with
    whatever status, the list of people is emptied and the confirmation
    logged; when the request fails in transport, the error is caught and
    logged and the manager is as it was. *)
Theorem clearAllDataOnServer_clears_on_completion
  (w : World UserManager.t (list Person.t)) (url : string) :
  UserManager.users_url (this w) = Normal url ->
  (forall res : Response,
      fetch env w (Calls.delete_users url) = Normal res ->
      run env UserManager.clearAllDataOnServer w
      = (print Calls.cleared_call
           (set_this (UserManager.set_people [] (this w))
              (send (Calls.delete_users url) w)),
         Normal tt))
  /\ (forall e : exn,
        fetch env w (Calls.delete_users url) = Thrown e ->
        run env UserManager.clearAllDataOnServer w
        = (print (Calls.caught "Failed to clear data:" e)
             (send (Calls.delete_users url) w),
           Normal tt)).
Proof.
  intros Hurl. split.
  - intros res Hfetch. apply (run_clearAllDataOnServer_completed env w url Hurl res Hfetch).
  - intros e Hfetch. apply (run_clearAllDataOnServer_transport env w url Hurl e Hfetch).
Qed.

(** C7.  [loadAllPeople] on error: whenever its [try] block throws, the
    manager is as it was before the call, the error is logged by the
    [catch] block and the call ends normally; and the block does throw
    when the fetch fails in transport, when the response is not ok, and
    when the body of the response cannot be parsed. *)
Theorem loadAllPeople_atomic_on_error (w : World UserManager.t (list Person.t)) :
  (forall (w1 : World UserManager.t (list Person.t)) (e : exn),
      run env UserManager.loadAllPeople_try w = (w1, Thrown e) ->
      run env UserManager.loadAllPeople w
      = (print (Calls.caught "Failed to load users:" e) w1, Normal tt)
      /\ this (print (Calls.caught "Failed to load users:" e) w1) = this w)
  /\ (forall url : string,
        UserManager.users_url (this w) = Normal url ->
        (forall e : exn,
            fetch env w (Calls.get_users url) = Thrown e ->
            run env UserManager.loadAllPeople_try w
            = (send (Calls.get_users url) w, Thrown e))
        /\ (forall res : Response,
              fetch env w (Calls.get_users url) = Normal res ->
              ok res = false ->
              run env UserManager.loadAllPeople_try w
              = (send (Calls.get_users url) w,
                 Thrown (new_exn Error
                           ("Error loading data: "
                            ++ Number_toString (status res)))))
        /\ (forall (res : Response) (e : exn),
              fetch env w (Calls.get_users url) = Normal res ->
              ok res = true ->
              json res = Thrown e ->
              run env UserManager.loadAllPeople_try w
              = (send (Calls.get_users url) w, Thrown e))).
Proof.
  split.
  - intros w1 e Htry. split.
    + unfold UserManager.loadAllPeople, UserManager.loadAllPeople_catch.
      rewrite run_logging_catch, Htry. reflexivity.
    + cbn [print this]. apply (run_loadAllPeople_try_thrown env w w1 e Htry).
  - intros url Hurl. split; [| split].
    + intros e Hfetch. apply (run_loadAllPeople_try_transport env w url Hurl e Hfetch).
    + intros res Hfetch Hok.
      apply (run_loadAllPeople_try_status env w url Hurl res Hfetch Hok).
    + intros res e Hfetch Hok Hjson.
      apply (run_loadAllPeople_try_body env w url Hurl res e Hfetch Hok Hjson).
Qed.

(** C3.  A load that goes through: every medication record is attached
    by [addMedication], the method that local callers use; every record
    becomes a new person with the first five of its medications, in the
    order of the record, and one warning is written for each medication
    after the fifth (so a record with more than five gives a person with
    exactly five); the list of people is then the list of these persons,
    whatever it was before. *)
Theorem loadAllPeople_rebuilds_and_replaces
  (w : World UserManager.t (list Person.t)) (url : string) (res : Response)
  (records : list value) :
  UserManager.users_url (this w) = Normal url ->
  fetch env w (Calls.get_users url) = Normal res ->
  ok res = true ->
  json res = Normal (VArr records) ->
  forallb Wire.person_record records = true ->
  (forall (person : Person.t) (m : value) (w' : World UserManager.t (list Person.t)),
      Wire.medication_record m = true ->
      run env (UserManager.attach_medication person m) w'
      = run env (Person.addMedication (Wire.medication_of_record m) person) w')
  /\ run env UserManager.loadAllPeople w
     = (Calls.loaded_world url records w, Normal tt)
  /\ UserManager.people (this (Calls.loaded_world url records w))
     = map Wire.person_of records
  /\ console_out (Calls.loaded_world url records w)
     = (console_out w ++ flat_map Wire.excess_warnings records
        ++ [{| level := console_log;
               args := [CStr "Users loaded from API:";
                        CObj (map Wire.person_of records)] |}])%list
  /\ (forall p : value,
        Person.medications (Wire.person_of p)
        = firstn 5 (map Wire.medication_of_record (Wire.record_medications p))
        /\ List.length (Wire.excess_warnings (Shown := list Person.t) p)
           = (List.length (Wire.record_medications p) - 5)%nat
        /\ ((5 < List.length (Wire.record_medications p))%nat ->
            List.length (Person.medications (Wire.person_of p)) = 5%nat)).
Proof.
  intros Hurl Hfetch Hok Hjson Hrecords.
  split; [| split; [| split; [| split]]].
  - intros person m w' Hm. apply run_attach_medication. exact Hm.
  - apply (run_loadAllPeople_success env w url res records); assumption.
  - reflexivity.
  - unfold Calls.loaded_world. cbn [print set_this prints send console_out].
    rewrite <- app_assoc. reflexivity.
  - intros p. split; [reflexivity | split].
    + unfold Wire.excess_warnings. apply repeat_length.
    + intros Hmore. unfold Wire.person_of. cbn [Person.medications].
      rewrite length_firstn, length_map. lia.
Qed.

(** C10.  A load that goes through keeps every record: the list of people
    has as many persons as the response has records, however many, and
    the person at each position is the one built from the record at that
    position. *)
Theorem loadAllPeople_keeps_every_record
  (w : World UserManager.t (list Person.t)) (url : string) (res : Response)
  (records : list value) :
  UserManager.users_url (this w) = Normal url ->
  fetch env w (Calls.get_users url) = Normal res ->
  ok res = true ->
  json res = Normal (VArr records) ->
  forallb Wire.person_record records = true ->
  snd (run env UserManager.loadAllPeople w) = Normal tt
  /\ List.length (UserManager.people (this (fst (run env UserManager.loadAllPeople w))))
     = List.length records
  /\ (forall i : nat,
        nth_error (UserManager.people (this (fst (run env UserManager.loadAllPeople w)))) i
        = option_map Wire.person_of (nth_error records i)).
Proof.
  intros Hurl Hfetch Hok Hjson Hrecords.
  rewrite (run_loadAllPeople_success env w url res records) by assumption.
  cbn [fst snd Calls.loaded_world print set_this this UserManager.set_people
       UserManager.people].
  split; [reflexivity | split].
  - apply length_map.
  - intros i. apply nth_error_map.
Qed.

(** What [clearAllDataOnServer] leaves: no people, or the manager as it was. *)
Lemma run_clearAllDataOnServer_people (w : World UserManager.t (list Person.t)) :
  UserManager.people (this (fst (run env UserManager.clearAllDataOnServer w))) = []
  \/ this (fst (run env UserManager.clearAllDataOnServer w)) = this w.
Proof.
  unfold UserManager.clearAllDataOnServer, UserManager.clearAllDataOnServer_catch.
  rewrite run_logging_catch.
  unfold UserManager.clearAllDataOnServer_try. cbn [run].
  destruct (UserManager.users_url (this w)) as [url | e]; cbn [lift bind run];
    [| right; reflexivity].
  destruct (fetch env w _) as [res | e]; cbn [lift bind run];
    [left | right]; reflexivity.
Qed.

(** X16.  Every operation but [loadAllPeople] keeps the list of people
    within five. *)
Lemma people_cap_kept_elsewhere
  (w : World UserManager.t (list Person.t)) (person : Person.t) :
  (List.length (UserManager.people (this w)) <= 5)%nat ->
  (List.length (UserManager.people
     (this (fst (run env (UserManager.addPerson person) w)))) <= 5)%nat
  /\ (List.length (UserManager.people
        (this (fst (run env (UserManager.savePersonToServer person) w)))) <= 5)%nat
  /\ (List.length (UserManager.people
        (this (fst (run env UserManager.clearAllDataOnServer w)))) <= 5)%nat
  /\ (List.length (UserManager.people
        (this (fst (run env UserManager.listAll w)))) <= 5)%nat.
Proof.
  intros Hcap. split; [| split; [| split]].
  - destruct (run_addPerson_people env person w) as [_ ->].
    destruct (Nat.ltb_spec (List.length (UserManager.people (this w))) 5);
      [rewrite length_app; cbn [List.length]; lia | exact Hcap].
  - rewrite keeps_this_run by apply keeps_this_savePersonToServer. exact Hcap.
  - destruct (run_clearAllDataOnServer_people w) as [-> | ->];
      [cbn [List.length]; lia | exact Hcap].
  - rewrite keeps_this_run by apply keeps_this_listAll. exact Hcap.
Qed.

(** C2, as amended.  A person whose name is a string, with at most five
    medications, each with a string for its name, an integer for
    [frequencyPerDay], a boolean for [taken] and a valid refill date (not
    the Invalid Date): the payload [savePersonToServer] writes exists, and
    [loadAllPeople] makes of the record read back a person with the same
    name and as many medications, each with the same name, frequency,
    taken flag and refill date (the same instant, so the same calendar
    date). *)
Theorem round_trip_of_valid_dates (person : Person.t) :
  Wire.person_typed person = true ->
  (List.length (Person.medications person) <= 5)%nat ->
  Wire.dates_valid person = true ->
  Calls.round_trips person.
Proof.
  intros Htyped Hlen Hvalid.
  exists (Wire.record_of_person person).
  split; [apply person_payload_valid; exact Hvalid |].
  intros env' w. exists person.
  cbn [JSON_parse]. rewrite JSON_echo_record_of_person by exact Htyped.
  rewrite run_person_of_record by (apply person_record_record_of_person; exact Htyped).
  destruct (person_of_record_of_person person Htyped Hvalid Hlen) as [-> ->].
  rewrite prints_nil.
  repeat split. apply same_medications_refl.
Qed.

End PeopleCap.

(** ** The properties at sample inputs *)

Section Samples.
Import Sample.
#[local] Existing Instance utc_host.

(** C1.  [loadAllPeople] takes the list of people beyond five: a manager
    without people that loads a response of six records has six people. *)
Theorem loadAllPeople_exceeds_people_cap :
  (List.length (UserManager.people (this manager)) <= 5)%nat
  /\ List.length
       (UserManager.people
          (this (fst (run (answering (users_response six_records))
                        UserManager.loadAllPeople manager))))
     = 6%nat.
Proof. split; [cbn; lia | reflexivity]. Qed.

(** C2 does not hold of every person: Pat, with one medication whose
    refill date is the Invalid Date, has fields of the right types and
    fewer than five medications, but writing Pat throws a RangeError, so
    there is no payload to read back. *)
Lemma round_trip_fails_on_invalid_date :
  Wire.person_typed pat = true
  /\ (List.length (Person.medications pat) <= 5)%nat
  /\ UserManager.person_payload pat = Thrown (new_exn RangeError "Invalid time value")
  /\ ~ Calls.round_trips pat.
Proof.
  split; [reflexivity | split; [cbn; lia | split; [reflexivity |]]].
  intros [payload [Hpayload _]]. discriminate Hpayload.
Qed.

(** Nor does a field that is not of its type come back as it was: the
    medication of Kim is named by the array [[undefined]], which is written
    as [[null]]. *)
Lemma round_trip_fails_on_untyped_field :
  Wire.dates_valid kim = true
  /\ (List.length (Person.medications kim) <= 5)%nat
  /\ ~ Calls.round_trips kim.
Proof.
  split; [reflexivity | split; [cbn; lia |]].
  intros [payload [Hpayload Hload]].
  injection Hpayload as <-.
  destruct (Hload offline manager) as [person' [Hrun [_ [_ Hsame]]]].
  injection Hrun as <-.
  inversion Hsame as [| m m' ms ms' [Hname _] _]; subst.
  discriminate Hname.
Qed.

Lemma round_trip_of_valid_dates_witness : Calls.round_trips alex.
Proof.
  apply (round_trip_of_valid_dates alex); [reflexivity | cbn; lia | reflexivity].
Defined.

Lemma addMedication_capped_at_five_witness :
  run offline (Calls.addMedications alex_pills (Person.new (VStr "Alex"))) manager
  = (manager, Normal alex)
  /\ run offline (Person.addMedication atorvastatin alex) manager
     = (print (Wire.full_warning "Alex") manager, Normal alex).
Proof.
  destruct (addMedication_capped_at_five offline manager) as [Hfew [_ Hfull]].
  split.
  - apply (Hfew (VStr "Alex") alex_pills). cbn; lia.
  - apply (Hfull "Alex" alex atorvastatin); [reflexivity | cbn; lia].
Defined.

Lemma addPerson_capped_at_five_witness :
  UserManager.people
    (this (fst (run offline (Calls.addPeople [named "Ann"; alex]) manager)))
  = [named "Ann"; alex]
  /\ UserManager.people
       (this (Calls.fireAddPerson offline (five_people ++ [alex]) manager))
     = five_people
  /\ run offline (UserManager.addPerson alex) (manager_with five_people)
     = (print Calls.people_warning (manager_with five_people), Normal tt).
Proof.
  destruct (addPerson_capped_at_five offline) as [Hfew [Hany Hfull]].
  split; [| split].
  - apply (Hfew manager [named "Ann"; alex]); [reflexivity | cbn; lia].
  - apply (Hany manager (five_people ++ [alex])%list). reflexivity.
  - apply (Hfull (manager_with five_people) alex). cbn; lia.
Defined.

Lemma addPerson_appends_before_push_witness :
  UserManager.people (this (fst (start offline (UserManager.addPerson alex) manager)))
  = [alex]
  /\ network (fst (start offline (UserManager.addPerson alex) manager))
     = [Calls.post_users "https://api.example.com/users" (Wire.record_of_person alex)]
  /\ UserManager.people (this (fst (run offline (UserManager.addPerson alex) manager)))
     = [alex].
Proof.
  destruct (addPerson_appends_before_push offline manager alex)
    as [Hstart [_ [Hsent [_ Hrun]]]].
  - cbn; lia.
  - destruct (Hsent "https://api.example.com/users" (Wire.record_of_person alex)
                eq_refl eq_refl) as [k [Hpaused _]].
    split; [exact Hstart | split; [| exact Hrun]].
    rewrite Hpaused. reflexivity.
Defined.

Lemma savePersonToServer_swallows_failures_witness :
  run (answering server_error) (UserManager.savePersonToServer alex) manager
  = (print (Calls.caught "Failed to save user:"
              (new_exn Error "Error saving person: 500"))
       (send (Calls.post_users "https://api.example.com/users"
                (Wire.record_of_person alex))
          manager),
     Normal tt).
Proof.
  destruct (savePersonToServer_swallows_failures (answering server_error) manager alex)
    as [_ [_ [Hcaught Hcauses]]].
  destruct (Hcauses "https://api.example.com/users" (Wire.record_of_person alex))
    as [_ Hstatus]; [reflexivity | reflexivity |].
  apply Hcaught. apply (Hstatus server_error); reflexivity.
Defined.

Lemma clearAllDataOnServer_clears_on_completion_witness :
  UserManager.people
    (this (fst (run (answering server_error) UserManager.clearAllDataOnServer
                  (manager_with five_people))))
  = []
  /\ UserManager.people
       (this (fst (run offline UserManager.clearAllDataOnServer
                     (manager_with five_people))))
     = five_people.
Proof.
  split.
  - destruct (clearAllDataOnServer_clears_on_completion (answering server_error)
                (manager_with five_people) "https://api.example.com/users" eq_refl)
      as [Hdone _].
    rewrite (Hdone server_error eq_refl). reflexivity.
  - destruct (clearAllDataOnServer_clears_on_completion offline
                (manager_with five_people) "https://api.example.com/users" eq_refl)
      as [_ Hfailed].
    rewrite (Hfailed (new_exn TypeError "fetch failed") eq_refl). reflexivity.
Defined.

Lemma loadAllPeople_atomic_on_error_witness :
  run (answering server_error) UserManager.loadAllPeople (manager_with five_people)
  = (print (Calls.caught "Failed to load users:"
              (new_exn Error "Error loading data: 500"))
       (send (Calls.get_users "https://api.example.com/users")
          (manager_with five_people)),
     Normal tt).
Proof.
  destruct (loadAllPeople_atomic_on_error (answering server_error)
              (manager_with five_people)) as [Hcaught Hcauses].
  destruct (Hcauses "https://api.example.com/users" eq_refl) as [_ [Hstatus _]].
  destruct (Hcaught _ _ (Hstatus server_error eq_refl eq_refl)) as [Hrun _].
  exact Hrun.
Defined.

Lemma loadAllPeople_rebuilds_and_replaces_witness :
  UserManager.people
    (this (fst (run (answering (users_response [overfull_record]))
                  UserManager.loadAllPeople (manager_with five_people))))
  = [alex]
  /\ List.length (Person.medications (Wire.person_of overfull_record)) = 5%nat
  /\ run (answering (users_response [overfull_record]))
       (UserManager.attach_medication alex (Wire.record_of_medication atorvastatin))
       manager
     = (print (Wire.full_warning "Alex") manager, Normal alex).
Proof.
  destruct (loadAllPeople_rebuilds_and_replaces
              (answering (users_response [overfull_record]))
              (manager_with five_people) "https://api.example.com/users"
              (users_response [overfull_record]) [overfull_record]
              eq_refl eq_refl eq_refl eq_refl eq_refl)
    as [_ [Hrun [_ [_ Hfive]]]].
  destruct (loadAllPeople_rebuilds_and_replaces
              (answering (users_response [overfull_record]))
              manager "https://api.example.com/users"
              (users_response [overfull_record]) [overfull_record]
              eq_refl eq_refl eq_refl eq_refl eq_refl) as [Hattach _].
  split; [| split].
  - rewrite Hrun. reflexivity.
  - apply (Hfive overfull_record). cbn; lia.
  - rewrite (Hattach alex (Wire.record_of_medication atorvastatin) manager eq_refl).
    reflexivity.
Defined.

Lemma loadAllPeople_keeps_every_record_witness :
  List.length
    (UserManager.people
       (this (fst (run (answering (users_response six_records))
                     UserManager.loadAllPeople (manager_with five_people)))))
  = 6%nat.
Proof.
  destruct (loadAllPeople_keeps_every_record
              (answering (users_response six_records))
              (manager_with five_people) "https://api.example.com/users"
              (users_response six_records) six_records
              eq_refl eq_refl eq_refl eq_refl eq_refl) as [_ [Hlen _]].
  exact Hlen.
Defined.

(** The scenarios of the specification. *)

Example load_sam :
  let w := fst (run (answering (users_response [sam_record]))
                  UserManager.loadAllPeople manager) in
  map Person.name (UserManager.people (this w)) = [VStr "Sam"]
  /\ map (fun p => List.length (Person.medications p)) (UserManager.people (this w))
     = [1%nat].
Proof. split; reflexivity. Qed.

Example alex_sixth_medication :
  run offline (Calls.addMedications (alex_pills ++ [atorvastatin])
                 (Person.new (VStr "Alex"))) manager
  = (print (Wire.full_warning "Alex") manager, Normal alex).
Proof. reflexivity. Qed.

Example save_pat :
  run offline (UserManager.addPerson pat) manager
  = (print (Calls.caught "Failed to save user:"
              (new_exn RangeError "Invalid time value"))
       (manager_with [pat]),
     Normal tt).
Proof. reflexivity. Qed.

(** [new Medication("Aspirin", 2, false, "soon")] holds the Invalid Date. *)
Example medication_without_date :
  run offline
    (Medication.new (VStr "Aspirin") (VNum 2) (VBool false)
       (Medication.AValue (VStr "soon")))
    manager
  = (manager, Normal undated).
Proof. reflexivity. Qed.

(** A person saved to a store that keeps what it is sent and loaded again. *)
Example save_then_load :
  UserManager.people
    (this (fst (run store
                  (UserManager.addPerson alex ;; UserManager.loadAllPeople)
                  manager)))
  = [alex].
Proof. reflexivity. Qed.

(** Two sessions on one store: five people added, then, from a new
    manager, a sixth; loading gives the new manager six people. *)
Example six_people_after_two_sessions :
  let second_session :=
    SetThis (UserManager.new (VStr "https://api.example.com")) (Ret tt) in
  map Person.name
    (UserManager.people
       (this (fst (run store
                     (Calls.addPeople five_people ;; second_session ;;
                      UserManager.addPerson alex ;; UserManager.loadAllPeople)
                     manager))))
  = [VStr "Ann"; VStr "Bob"; VStr "Cy"; VStr "Di"; VStr "Ed"; VStr "Alex"].
Proof. reflexivity. Qed.

Example mark_twice :
  Medication.taken (Medication.markAsTaken (Medication.markAsTaken undated)) = VBool true
  /\ Medication.taken
       (Medication.resetTakenStatus (Medication.resetTakenStatus undated)) = VBool false.
Proof. split; reflexivity. Qed.

End Samples.

(** * Further properties *)

(** ** Medication *)

Section MedicationFacts.
Context `{Host} {This Shown : Type}.
Variable env : Env This Shown.

(** X1.  [new Medication(name, frequencyPerDay, taken, refillDate)] ends
    normally and touches nothing whenever the fourth argument is a Date, is
    left out, or is [null], a boolean, an integer or a string: a Date is
    kept as it is, a missing one becomes the time of the clock, a string is
    parsed (to the Invalid Date when it is no date), and a missing [taken]
    becomes [false]. *)
Theorem Medication_new_normalizes (w : World This Shown) (name frequencyPerDay taken : value) :
  (forall d : Date,
      run env (Medication.new name frequencyPerDay taken (Medication.ADate d)) w
      = (w, Normal {| Medication.name := name;
                      Medication.frequencyPerDay := frequencyPerDay;
                      Medication.taken := Report.taken_or_false taken;
                      Medication.refillDate := d |}))
  /\ run env (Medication.new name frequencyPerDay taken (Medication.AValue VUndefined)) w
     = (w, Normal {| Medication.name := name;
                     Medication.frequencyPerDay := frequencyPerDay;
                     Medication.taken := Report.taken_or_false taken;
                     Medication.refillDate := TimeClip (clock env w) |})
  /\ (forall s : string,
        run env (Medication.new name frequencyPerDay taken (Medication.AValue (VStr s))) w
        = (w, Normal {| Medication.name := name;
                        Medication.frequencyPerDay := frequencyPerDay;
                        Medication.taken := Report.taken_or_false taken;
                        Medication.refillDate := Date_parse s |}))
  /\ (forall v : value,
        Report.is_primitive v = true ->
        exists d : Date,
          run env (Medication.new name frequencyPerDay taken (Medication.AValue v)) w
          = (w, Normal {| Medication.name := name;
                          Medication.frequencyPerDay := frequencyPerDay;
                          Medication.taken := Report.taken_or_false taken;
                          Medication.refillDate := d |})).
Proof.
  unfold Medication.new, Report.taken_or_false.
  split; [| split; [| split]].
  - intros d. destruct taken; reflexivity.
  - destruct taken; reflexivity.
  - intros s. destruct taken; reflexivity.
  - intros v Hv. destruct v; try discriminate Hv; eexists; destruct taken; reflexivity.
Qed.

End MedicationFacts.

(** X2.  [markAsTaken] and [resetTakenStatus] change the [taken] flag and
    nothing else, doing either twice is doing it once, and of two calls in
    a row the second decides. *)
Theorem taken_flag_toggles (m : Medication.t) :
  Medication.taken (Medication.markAsTaken m) = VBool true
  /\ Medication.taken (Medication.resetTakenStatus m) = VBool false
  /\ Medication.markAsTaken (Medication.markAsTaken m) = Medication.markAsTaken m
  /\ Medication.resetTakenStatus (Medication.resetTakenStatus m)
     = Medication.resetTakenStatus m
  /\ Medication.resetTakenStatus (Medication.markAsTaken m) = Medication.resetTakenStatus m
  /\ Medication.markAsTaken (Medication.resetTakenStatus m) = Medication.markAsTaken m
  /\ (Medication.name (Medication.markAsTaken m),
      Medication.frequencyPerDay (Medication.markAsTaken m),
      Medication.refillDate (Medication.markAsTaken m))
     = (Medication.name m, Medication.frequencyPerDay m, Medication.refillDate m)
  /\ (Medication.name (Medication.resetTakenStatus m),
      Medication.frequencyPerDay (Medication.resetTakenStatus m),
      Medication.refillDate (Medication.resetTakenStatus m))
     = (Medication.name m, Medication.frequencyPerDay m, Medication.refillDate m).
Proof. repeat split. Qed.

(** ** Person *)

(** Induction on a value and on the values inside it. *)
Fixpoint value_nested_ind (P : value -> Prop)
  (Hundefined : P VUndefined) (Hnull : P VNull) (Hbool : forall b, P (VBool b))
  (Hnum : forall n, P (VNum n)) (Hstr : forall s, P (VStr s))
  (Harr : forall items, Forall P items -> P (VArr items))
  (Hobj : forall props, P (VObj props))
  (v : value) : P v :=
  match v with
  | VUndefined => Hundefined
  | VNull => Hnull
  | VBool b => Hbool b
  | VNum n => Hnum n
  | VStr s => Hstr s
  | VArr items =>
      Harr items
        ((fix all (xs : list value) : Forall P xs :=
            match xs with
            | [] => Forall_nil P
            | x :: rest =>
                Forall_cons x
                  (value_nested_ind P Hundefined Hnull Hbool Hnum Hstr Harr Hobj x)
                  (all rest)
            end) items)
  | VObj props => Hobj props
  end.

(** A conversion to text that throws throws a TypeError. *)
Lemma ToString_thrown_TypeError (v : value) (e : exn) :
  ToString v = Thrown e -> ctor e = TypeError.
Proof.
  revert e. induction v as [| | b | n | s | items IH | props] using value_nested_ind;
    intros e; cbn [ToString]; try discriminate.
  - destruct b; discriminate.
  - induction IH as [| x rest Hx _ IHrest]; [discriminate |].
    assert (Helement : forall e0,
               match x with
               | VUndefined | VNull => Normal ""
               | _ => ToString x
               end = Thrown e0 -> ctor e0 = TypeError).
    { intros e0. destruct x; try discriminate; apply Hx. }
    destruct rest as [| y rest'].
    + apply Helement.
    + destruct (match x with
                | VUndefined | VNull => Normal ""
                | _ => ToString x
                end) as [sx | ex] eqn:Hex; cbn [cbind].
      * intros Hjoin.
        match type of Hjoin with
        | cbind ?j _ = _ => destruct j as [r | er] eqn:Hrest; cbn [cbind] in Hjoin
        end; [discriminate Hjoin |].
        injection Hjoin as <-. apply IHrest. reflexivity.
      * intros Hjoin. injection Hjoin as <-. apply (Helement ex eq_refl).
  - destruct (has_key "toString" props); [| discriminate].
    intros Hthrown. injection Hthrown as <-. reflexivity.
Qed.

Section PersonMoreFacts.
Context `{Host} {This Shown : Type}.
Variable env : Env This Shown.

(** X3.  Every outcome of [addMedication], whatever the name of the
    person: with fewer than five medications the new one goes to the end
    and nothing is written; with five or more the person is returned as
    it was, after a warning that shows the name (its text is given for a
    name whose numbers are safe integers), unless the name cannot be put
    into the warning (an object with a [toString] property of its own), in
    which case the call throws a TypeError and writes nothing.  So a
    person within the cap stays within it, and the medications already
    there stay where they are. *)
Theorem addMedication_outcomes (med : Medication.t) (person : Person.t)
  (w : World This Shown) :
  ((List.length (Person.medications person) < 5)%nat ->
   run env (Person.addMedication med person) w
   = (w, Normal {| Person.name := Person.name person;
                   Person.medications := Person.medications person ++ [med] |}))
  /\ ((5 <= List.length (Person.medications person))%nat ->
      forall who : string,
        Report.numbers_safe (Person.name person) = true ->
        ToString (Person.name person) = Normal who ->
        run env (Person.addMedication med person) w
        = (print (Wire.full_warning who) w, Normal person))
  /\ ((5 <= List.length (Person.medications person))%nat ->
      Report.printable (Person.name person) = false ->
      exists e : exn,
        ctor e = TypeError
        /\ run env (Person.addMedication med person) w = (w, Thrown e))
  /\ (forall (w' : World This Shown) (person' : Person.t),
        run env (Person.addMedication med person) w = (w', Normal person') ->
        Person.name person' = Person.name person
        /\ firstn (List.length (Person.medications person)) (Person.medications person')
           = Person.medications person
        /\ ((List.length (Person.medications person) <= 5)%nat ->
            (List.length (Person.medications person') <= 5)%nat)).
Proof.
  split; [| split; [| split]].
  - apply run_addMedication_room.
  - intros Hfull who _ Hwho. unfold Person.addMedication.
    destruct (Z.leb_spec 5 (Z.of_nat (List.length (Person.medications person))));
      [| lia].
    rewrite Hwho. reflexivity.
  - intros Hfull Hname. unfold Person.addMedication, Report.printable in *.
    destruct (Z.leb_spec 5 (Z.of_nat (List.length (Person.medications person))));
      [| lia].
    destruct (ToString (Person.name person)) as [who | e] eqn:He; [discriminate Hname |].
    exists e. split; [apply (ToString_thrown_TypeError _ _ He) | reflexivity].
  - intros w' person'. unfold Person.addMedication.
    destruct (Z.leb_spec 5 (Z.of_nat (List.length (Person.medications person)))).
    + destruct (ToString (Person.name person)) as [who | e]; cbn [lift bind run console].
      * intros Hrun. injection Hrun as _ <-.
        repeat split; [apply firstn_all | auto].
      * intros Hrun. discriminate Hrun.
    + cbn [run]. intros Hrun. injection Hrun as _ <-.
      cbn [Person.name Person.medications].
      repeat split.
      * rewrite firstn_app, firstn_all, Nat.sub_diag. cbn [firstn].
        apply app_nil_r.
      * intros _. rewrite length_app. cbn [List.length]. lia.
Qed.

Lemma ToString_printable (v : value) :
  Report.printable v = true -> ToString v = Normal (Report.text v).
Proof.
  unfold Report.printable, Report.text.
  destruct (ToString v); [reflexivity | discriminate].
Qed.

Lemma run_listMedication (i : Z) (m : Medication.t) (w : World This Shown) :
  Report.medication_printable m = true ->
  run env (Person.listMedication i m) w
  = (print (Report.medication_line i m) w, Normal (i + 1)).
Proof.
  unfold Report.medication_printable. intros Hm.
  apply andb_prop in Hm. destruct Hm as [Hm Ht].
  apply andb_prop in Hm. destruct Hm as [Hn Hf].
  unfold Person.listMedication.
  rewrite (ToString_printable _ Hn), (ToString_printable _ Hf), (ToString_printable _ Ht).
  reflexivity.
Qed.

Lemma run_listMedication_lines (ms : list Medication.t) :
  forall (i : Z) (w : World This Shown),
    forallb Report.medication_printable ms = true ->
    exists j : Z,
      run env (forEach Person.listMedication ms i) w
      = (prints (Report.medication_lines i ms) w, Normal j).
Proof.
  induction ms as [| m rest IH]; intros i w Hms; cbn [forEach Report.medication_lines].
  - exists i. cbn [run]. rewrite prints_nil. reflexivity.
  - cbn [forallb] in Hms. apply andb_prop in Hms. destruct Hms as [Hm Hrest].
    rewrite run_bind, run_listMedication by exact Hm.
    destruct (IH (i + 1) (print (Report.medication_line i m) w) Hrest) as [j Hj].
    exists j. rewrite Hj, print_prints. reflexivity.
Qed.

Lemma length_medication_lines (ms : list Medication.t) :
  forall i : Z,
    List.length (Report.medication_lines (Shown := Shown) i ms) = List.length ms.
Proof.
  induction ms as [| m rest IH]; intros i; cbn [Report.medication_lines List.length];
    [reflexivity |].
  rewrite IH. reflexivity.
Qed.

Lemma run_listMedications (person : Person.t) (w : World This Shown) :
  Report.person_printable person = true ->
  run env (Person.listMedications person) w = (prints (Report.listing person) w, Normal tt).
Proof.
  unfold Report.person_printable. intros Hp.
  apply andb_prop in Hp. destruct Hp as [Hname Hms].
  unfold Person.listMedications, Report.listing.
  rewrite (ToString_printable _ Hname). cbn [lift bind console run].
  rewrite run_bind.
  match goal with
  | |- context [run env (forEach Person.listMedication ?ms ?i) ?w0] =>
      destruct (run_listMedication_lines ms i w0 Hms) as [j ->]
  end.
  cbn [run]. rewrite print_prints. reflexivity.
Qed.

Lemma addMedication_keeps_cap (med : Medication.t) (person person' : Person.t)
  (w w' : World This Shown) :
  run env (Person.addMedication med person) w = (w', Normal person') ->
  Report.within_cap person -> Report.within_cap person'.
Proof.
  unfold Report.within_cap, Person.addMedication.
  destruct (Z.leb_spec 5 (Z.of_nat (List.length (Person.medications person)))).
  - destruct (ToString (Person.name person)) as [who | e]; cbn [lift bind run console].
    + intros Hrun. injection Hrun as _ <-. auto.
    + intros Hrun. discriminate Hrun.
  - cbn [run]. intros Hrun. injection Hrun as _ <-.
    cbn [Person.medications]. rewrite length_app. cbn [List.length]. lia.
Qed.

Lemma person_listable_printable (person : Person.t) :
  Report.person_listable person = true -> Report.person_printable person = true.
Proof.
  unfold Report.person_listable. intros Hp.
  apply andb_prop in Hp. destruct Hp as [Hp _].
  apply andb_prop in Hp. destruct Hp as [Hp _].
  apply andb_prop in Hp. destruct Hp as [Hp _]. exact Hp.
Qed.

(** X4.  [listMedications] of a person whose name and medication fields
    can be converted to text, with safe integers for numbers, writes the
    header and then one line for each medication, numbered from 1 in the
    order of the list, and does nothing else: it ends normally, [this] and
    the network are as they were. *)
Theorem listMedications_writes_listing (person : Person.t) (w : World This Shown) :
  Report.person_listable person = true ->
  run env (Person.listMedications person) w = (prints (Report.listing person) w, Normal tt)
  /\ List.length (Report.listing (Shown := Shown) person)
     = S (List.length (Person.medications person))
  /\ this (prints (Report.listing person) w) = this w
  /\ network (prints (Report.listing person) w) = network w.
Proof.
  intros Hp. split; [| split; [| split]]; try reflexivity.
  - apply run_listMedications. apply person_listable_printable. exact Hp.
  - unfold Report.listing. cbn [List.length]. f_equal.
    apply length_medication_lines.
Qed.

End PersonMoreFacts.

(** ** What is sent *)

Section TrafficFacts.
Context {This Shown : Type}.
Variable env : Env This Shown.

Lemma sends_nothing_run {A : Type} (p : prog This Shown A) :
  Report.sends_nothing p -> forall w, network (fst (run env p w)) = network w.
Proof.
  induction 1 as [a | e | k _ IH | s k _ IH | c k _ IH | k _ IH | res k _ IH];
    intros w; cbn [run fst]; auto.
  - rewrite IH. reflexivity.
  - rewrite IH. reflexivity.
Qed.

Lemma sends_nothing_bind {A B : Type} (p : prog This Shown A) (f : A -> prog This Shown B) :
  Report.sends_nothing p -> (forall a, Report.sends_nothing (f a)) ->
  Report.sends_nothing (bind p f).
Proof.
  intros Hp Hf. induction Hp; cbn [bind]; auto; constructor; auto.
Qed.

Lemma sends_nothing_lift {A : Type} (c : completion A) :
  Report.sends_nothing (lift c : prog This Shown A).
Proof. destruct c; constructor. Qed.

Lemma sends_nothing_try_catch {A : Type} (p : prog This Shown A)
  (h : exn -> prog This Shown A) :
  Report.sends_nothing p -> (forall e, Report.sends_nothing (h e)) ->
  Report.sends_nothing (try_catch p h).
Proof.
  intros Hp Hh. induction Hp; cbn [try_catch]; auto; constructor; auto.
Qed.

Lemma sends_nothing_console (m : console_method) (xs : list (console_arg Shown)) :
  Report.sends_nothing (console m xs : prog This Shown unit).
Proof. repeat constructor. Qed.

Lemma sends_nothing_mapM {A B : Type} (f : A -> prog This Shown B) (xs : list A) :
  (forall x, Report.sends_nothing (f x)) -> Report.sends_nothing (mapM f xs).
Proof.
  intros Hf. induction xs as [| x rest IH]; cbn [mapM].
  - constructor.
  - apply sends_nothing_bind; [apply Hf |]. intros y.
    apply sends_nothing_bind; [exact IH |]. intros ys. constructor.
Qed.

Lemma sends_nothing_forEach {A B : Type} (f : B -> A -> prog This Shown B)
  (xs : list A) (b : B) :
  (forall b x, Report.sends_nothing (f b x)) -> Report.sends_nothing (forEach f xs b).
Proof.
  intros Hf. revert b. induction xs as [| x rest IH]; intros b; cbn [forEach].
  - constructor.
  - apply sends_nothing_bind; [apply Hf | exact IH].
Qed.

(** A loop keeps what each round keeps. *)
Lemma run_forEach_invariant {A B : Type} (f : B -> A -> prog This Shown B)
  (P : B -> Prop) (xs : list A) :
  (forall b x w w' b', run env (f b x) w = (w', Normal b') -> P b -> P b') ->
  forall b w w' b',
    run env (forEach f xs b) w = (w', Normal b') -> P b -> P b'.
Proof.
  intros Hf. induction xs as [| x rest IH]; intros b w w' b'; cbn [forEach].
  - cbn [run]. intros Hrun Hb. injection Hrun as _ <-. exact Hb.
  - rewrite run_bind.
    destruct (run env (f b x) w) as [w1 [b1 | e]] eqn:Hstep; [| discriminate].
    intros Hrun Hb. apply (IH b1 w1 w' b' Hrun). apply (Hf b x w w1 b1 Hstep Hb).
Qed.

(** The results of a map that went through are results of its callback. *)
Lemma run_mapM_Forall {A B : Type} (f : A -> prog This Shown B) (Q : B -> Prop)
  (xs : list A) :
  (forall x w w' y, run env (f x) w = (w', Normal y) -> Q y) ->
  forall w w' ys, run env (mapM f xs) w = (w', Normal ys) -> Forall Q ys.
Proof.
  intros Hf. induction xs as [| x rest IH]; intros w w' ys; cbn [mapM].
  - cbn [run]. intros Hrun. injection Hrun as _ <-. constructor.
  - rewrite run_bind.
    destruct (run env (f x) w) as [w1 [y | e]] eqn:Hx; [| discriminate].
    rewrite run_bind.
    destruct (run env (mapM f rest) w1) as [w2 [ys' | e]] eqn:Hrest; [| discriminate].
    cbn [run]. intros Hrun. injection Hrun as _ <-.
    constructor; [apply (Hf x w w1 y Hx) | apply (IH w1 w2 ys' Hrest)].
Qed.

End TrafficFacts.

Ltac quiet :=
  repeat first
    [ apply sends_nothing_lift
    | apply sends_nothing_console
    | apply sends_nothing_bind
    | apply sends_nothing_forEach
    | apply sends_nothing_mapM
    | apply sends_nothing_try_catch
    | progress intros
    | match goal with
      | |- Report.sends_nothing (if ?b then _ else _) => destruct b
      | |- Report.sends_nothing (match ?x with _ => _ end) => destruct x
      end
    | constructor ].

Section QuietMethods.
Context `{Host}.

Lemma sends_nothing_addMedication {This Shown : Type} (med : Medication.t) (p : Person.t) :
  Report.sends_nothing (Person.addMedication med p : prog This Shown Person.t).
Proof. unfold Person.addMedication. quiet. Qed.

Lemma sends_nothing_Medication_new {This Shown : Type} (n f t : value)
  (d : Medication.date_arg) :
  Report.sends_nothing (Medication.new n f t d : prog This Shown Medication.t).
Proof. unfold Medication.new. quiet. Qed.

Lemma sends_nothing_person_of_record (p : value) :
  Report.sends_nothing (UserManager.person_of_record p).
Proof.
  unfold UserManager.person_of_record, UserManager.attach_medication.
  quiet; first [apply sends_nothing_Medication_new | apply sends_nothing_addMedication].
Qed.

Lemma sends_nothing_listMedications {This Shown : Type} (p : Person.t) :
  Report.sends_nothing (Person.listMedications p : prog This Shown unit).
Proof.
  unfold Person.listMedications. quiet.
Qed.

Lemma sends_nothing_listAll : Report.sends_nothing UserManager.listAll.
Proof.
  unfold UserManager.listAll. constructor. intros this.
  apply sends_nothing_forEach. intros [] p. apply sends_nothing_listMedications.
Qed.

End QuietMethods.

(** ** UserManager: more of what the operations do *)

Section ManagerMoreFacts.
Context `{Host}.
Variable env : Env UserManager.t (list Person.t).

Lemma run_listAll_people (ps : list Person.t) :
  forall w : World UserManager.t (list Person.t),
    forallb Report.person_printable ps = true ->
    run env (forEach (fun (_ : unit) p => Person.listMedications p) ps tt) w
    = (prints (flat_map Report.listing ps) w, Normal tt).
Proof.
  induction ps as [| p rest IH]; intros w Hps; cbn [forEach flat_map].
  - cbn [run]. rewrite prints_nil. reflexivity.
  - cbn [forallb] in Hps. apply andb_prop in Hps. destruct Hps as [Hp Hrest].
    rewrite run_bind, run_listMedications by exact Hp.
    rewrite IH by exact Hrest. rewrite prints_prints. reflexivity.
Qed.

Lemma forallb_person_listable_printable (ps : list Person.t) :
  forallb Report.person_listable ps = true ->
  forallb Report.person_printable ps = true.
Proof.
  rewrite !forallb_forall. intros Hps p Hp.
  apply person_listable_printable, Hps, Hp.
Qed.

(** X5.  [listAll], on a manager whose people all have a name and
    medication fields that can be converted to text, with safe integers
    for numbers, writes the listing of every person, in the order of the
    list, and nothing else; on a manager without people it writes nothing.
    It changes neither [this] nor the network. *)
Theorem listAll_writes_every_listing (w : World UserManager.t (list Person.t)) :
  forallb Report.person_listable (UserManager.people (this w)) = true ->
  run env UserManager.listAll w
  = (prints (flat_map Report.listing (UserManager.people (this w))) w, Normal tt)
  /\ (UserManager.people (this w) = [] -> run env UserManager.listAll w = (w, Normal tt)).
Proof.
  intros Hps. apply forallb_person_listable_printable in Hps.
  assert (Hrun : run env UserManager.listAll w
                 = (prints (flat_map Report.listing (UserManager.people (this w))) w,
                    Normal tt)).
  { unfold UserManager.listAll. cbn [run]. apply run_listAll_people. exact Hps. }
  split; [exact Hrun |].
  intros Hempty. rewrite Hrun, Hempty. cbn [flat_map]. rewrite prints_nil. reflexivity.
Qed.

Section Save.
Variable w : World UserManager.t (list Person.t).
Variable url : string.
Hypothesis Hurl : UserManager.users_url (this w) = Normal url.
Variable person : Person.t.

Lemma run_savePersonToServer_ok (payload : value) (res : Response) :
  UserManager.person_payload person = Normal payload ->
  fetch env w (Calls.post_users url payload) = Normal res ->
  ok res = true ->
  run env (UserManager.savePersonToServer person) w
  = match json res with
    | Thrown e =>
        (print (Calls.caught "Failed to save user:" e)
           (send (Calls.post_users url payload) w), Normal tt)
    | Normal data =>
        match cbind (ToString (Person.name person)) (fun who =>
              cbind (get data "userId") (fun userId =>
              cbind (ToString (nullish userId (VStr "N/A"))) (fun id =>
              Normal (who, id)))) with
        | Normal (who, id) =>
            (print (Report.saved_call who id)
               (send (Calls.post_users url payload) w), Normal tt)
        | Thrown e =>
            (print (Calls.caught "Failed to save user:" e)
               (send (Calls.post_users url payload) w), Normal tt)
        end
    end.
Proof.
  intros Hpayload Hfetch Hok.
  unfold UserManager.savePersonToServer, UserManager.savePersonToServer_catch.
  rewrite run_logging_catch.
  unfold UserManager.savePersonToServer_try. cbn [run].
  rewrite Hurl. cbn [lift bind run]. rewrite Hpayload. cbn [lift bind run].
  fold (Calls.post_users url payload). rewrite Hfetch. cbn [lift bind].
  rewrite Hok. cbn [negb run].
  destruct (json res) as [data | e]; cbn [lift bind run]; [| reflexivity].
  destruct (ToString (Person.name person)) as [who | e]; cbn [lift bind run cbind];
    [| reflexivity].
  destruct (get data "userId") as [userId | e]; cbn [lift bind run cbind];
    [| reflexivity].
  destruct (ToString (nullish userId (VStr "N/A"))) as [id | e];
    cbn [lift bind run cbind]; reflexivity.
Qed.

Lemma person_payload_invalid :
  Report.has_invalid_date person = true ->
  UserManager.person_payload person
  = Thrown (new_exn RangeError "Invalid time value").
Proof.
  unfold Report.has_invalid_date, UserManager.person_payload.
  induction (Person.medications person) as [| m rest IH];
    cbn [existsb UserManager.medications_payload]; [discriminate |].
  unfold UserManager.medication_payload.
  destruct (Medication.refillDate m) as [t |]; cbn [toISOString cbind orb].
  - intros Hrest. specialize (IH Hrest).
    destruct (UserManager.medications_payload rest); [discriminate IH | exact IH].
  - reflexivity.
Qed.

Lemma run_savePersonToServer_invalid :
  Report.has_invalid_date person = true ->
  run env (UserManager.savePersonToServer person) w
  = (print (Calls.caught "Failed to save user:"
              (new_exn RangeError "Invalid time value")) w,
     Normal tt).
Proof.
  intros Hbad.
  unfold UserManager.savePersonToServer, UserManager.savePersonToServer_catch.
  rewrite run_logging_catch.
  unfold UserManager.savePersonToServer_try. cbn [run].
  rewrite Hurl. cbn [lift bind run].
  rewrite (person_payload_invalid Hbad). reflexivity.
Qed.
End Save.

(** X6.  [savePersonToServer] of a person whose refill dates are all
    valid, on a manager whose [apiBaseUrl] is the string [base], when all
    goes well: exactly one request is sent, a POST to [base ++ "/users"]
    with the JSON header and, as body, the text of the object with the
    name of the person and, for every medication, its name,
    [frequencyPerDay], [taken] and the ISO text of its refill date.  On an
    ok response with a body that can be read, the confirmation names the
    person and the [userId] of the response (numbers in either being safe
    integers), or "N/A" when the response has none (or [null]); a [userId]
    or a name that is a string is shown as it is; [this] is as it was. *)
Theorem savePersonToServer_confirms
  (w : World UserManager.t (list Person.t)) (person : Person.t)
  (base who id : string) (data userId : value) (res : Response) :
  UserManager.apiBaseUrl (this w) = VStr base ->
  Wire.dates_valid person = true ->
  fetch env w (Calls.post_users (base ++ "/users") (Wire.record_of_person person))
  = Normal res ->
  ok res = true ->
  json res = Normal data ->
  Report.numbers_safe (Person.name person) = true ->
  ToString (Person.name person) = Normal who ->
  get data "userId" = Normal userId ->
  Report.numbers_safe userId = true ->
  ToString (nullish userId (VStr "N/A")) = Normal id ->
  run env (UserManager.savePersonToServer person) w
  = (print (Report.saved_call who id)
       (send (Calls.post_users (base ++ "/users") (Wire.record_of_person person)) w),
     Normal tt)
  /\ network (fst (run env (UserManager.savePersonToServer person) w))
     = (network w
        ++ [{| url := base ++ "/users"; method := "POST";
               headers := [("Content-Type", "application/json")];
               body :=
                 Some (JSON_stringify
                         (VObj [("name", Person.name person);
                                ("medications",
                                 VArr (map (fun m =>
                                              VObj [("name", Medication.name m);
                                                    ("frequencyPerDay",
                                                     Medication.frequencyPerDay m);
                                                    ("taken", Medication.taken m);
                                                    ("refillDate",
                                                     VStr (Wire.iso_text
                                                             (Medication.refillDate m)))])
                                         (Person.medications person)))])) |}])%list
  /\ this (fst (run env (UserManager.savePersonToServer person) w)) = this w
  /\ (userId = VUndefined \/ userId = VNull -> id = "N/A")
  /\ (forall s : string, userId = VStr s -> id = s)
  /\ (forall s : string, Person.name person = VStr s -> who = s).
Proof.
  intros Hbase Hvalid Hfetch Hok Hjson _ Hwho Hget _ Hid.
  assert (Hurl : UserManager.users_url (this w) = Normal (base ++ "/users")).
  { unfold UserManager.users_url. rewrite Hbase. reflexivity. }
  assert (Hrun : run env (UserManager.savePersonToServer person) w
                 = (print (Report.saved_call who id)
                      (send (Calls.post_users (base ++ "/users")
                               (Wire.record_of_person person)) w),
                    Normal tt)).
  { rewrite (run_savePersonToServer_ok w (base ++ "/users") Hurl person
               (Wire.record_of_person person) res
               (person_payload_valid person Hvalid) Hfetch Hok).
    rewrite Hjson, Hwho. cbn [cbind]. rewrite Hget. cbn [cbind]. rewrite Hid.
    reflexivity. }
  split; [exact Hrun |]. rewrite Hrun.
  split; [reflexivity |]. split; [reflexivity |].
  split; [| split].
  - intros [-> | ->]; cbn [nullish ToString] in Hid; injection Hid as <-; reflexivity.
  - intros s ->. cbn [nullish ToString] in Hid. injection Hid as <-. reflexivity.
  - intros s Hname. rewrite Hname in Hwho. cbn [ToString] in Hwho.
    injection Hwho as <-. reflexivity.
Qed.

(** X7.  A person one of whose medications holds the Invalid Date is
    never sent: [savePersonToServer] logs the RangeError of
    [toISOString] and sends nothing; and [addPerson], when there is room,
    has by then added the person to the local list all the same. *)
Theorem invalid_date_is_never_sent
  (w : World UserManager.t (list Person.t)) (person : Person.t) (url : string) :
  UserManager.users_url (this w) = Normal url ->
  Report.has_invalid_date person = true ->
  exists e : exn,
    ctor e = RangeError
    /\ run env (UserManager.savePersonToServer person) w
       = (print (Calls.caught "Failed to save user:" e) w, Normal tt)
    /\ ((List.length (UserManager.people (this w)) < 5)%nat ->
        run env (UserManager.addPerson person) w
        = (print (Calls.caught "Failed to save user:" e)
             (set_this (UserManager.set_people
                          (UserManager.people (this w) ++ [person])%list (this w)) w),
           Normal tt)).
Proof.
  intros Hurl Hbad. exists (new_exn RangeError "Invalid time value").
  split; [reflexivity | split].
  - apply (run_savePersonToServer_invalid w url Hurl person Hbad).
  - intros Hroom.
    destruct (run_addPerson_room env person w Hroom) as [_ Hrun].
    cbv zeta in Hrun. rewrite Hrun.
    apply (run_savePersonToServer_invalid _ url); [exact Hurl | exact Hbad].
Qed.

(** X8.  An ok response whose body cannot be used is reported as a
    failure although the request was sent: a body that is not JSON logs
    the error of [res.json()], and the body [null] logs the TypeError of
    reading [userId] from it. *)
Theorem savePersonToServer_unusable_body
  (w : World UserManager.t (list Person.t)) (person : Person.t)
  (url who : string) (payload : value) (res : Response) :
  UserManager.users_url (this w) = Normal url ->
  UserManager.person_payload person = Normal payload ->
  fetch env w (Calls.post_users url payload) = Normal res ->
  ok res = true ->
  ToString (Person.name person) = Normal who ->
  (forall e : exn,
      json res = Thrown e ->
      run env (UserManager.savePersonToServer person) w
      = (print (Calls.caught "Failed to save user:" e)
           (send (Calls.post_users url payload) w),
         Normal tt))
  /\ (json res = Normal VNull ->
      exists e : exn,
        ctor e = TypeError
        /\ run env (UserManager.savePersonToServer person) w
           = (print (Calls.caught "Failed to save user:" e)
                (send (Calls.post_users url payload) w),
              Normal tt)).
Proof.
  intros Hurl Hpayload Hfetch Hok Hwho.
  rewrite (run_savePersonToServer_ok w url Hurl person payload res Hpayload Hfetch Hok).
  split.
  - intros e ->. reflexivity.
  - intros ->. rewrite Hwho. eexists. split; [| reflexivity]. reflexivity.
Qed.

End ManagerMoreFacts.

(** ** UserManager: loading, clearing, and calls that overlap *)

Section LoadMoreFacts.
Context `{Host}.
Variable env : Env UserManager.t (list Person.t).

Lemma run_person_of_record_unreadable (bad : value) :
  Report.unreadable_record bad = true ->
  exists e : exn,
    ctor e = TypeError
    /\ forall w : World UserManager.t (list Person.t),
         run env (UserManager.person_of_record bad) w = (w, Thrown e).
Proof.
  unfold Report.unreadable_record, UserManager.person_of_record.
  destruct bad as [| | b | n | s | items | props]; cbn [Wire.field get lift bind];
    intros Hbad; try (eexists; split; [| intros w; reflexivity]; reflexivity).
  destruct (lookup "medications" props) as [| | b | n | s | ms | props'];
    try discriminate Hbad;
    (eexists; split; [| intros w; reflexivity]; reflexivity).
Qed.

Lemma run_mapM_bad_record (goods : list value) (bad : value) (rest : list value) (e : exn) :
  forallb Wire.person_record goods = true ->
  (forall w : World UserManager.t (list Person.t),
      run env (UserManager.person_of_record bad) w = (w, Thrown e)) ->
  forall w : World UserManager.t (list Person.t),
    run env (mapM UserManager.person_of_record (goods ++ bad :: rest)) w
    = (prints (flat_map Wire.excess_warnings goods) w, Thrown e).
Proof.
  intros Hgoods Hbad.
  induction goods as [| p more IH]; intros w; cbn [app mapM flat_map].
  - rewrite run_bind, Hbad, prints_nil. reflexivity.
  - cbn [forallb] in Hgoods. apply andb_prop in Hgoods. destruct Hgoods as [Hp Hmore].
    rewrite run_bind, run_person_of_record by exact Hp.
    rewrite run_bind, IH by exact Hmore.
    rewrite prints_prints. reflexivity.
Qed.

Lemma run_loadAllPeople_ok (w : World UserManager.t (list Person.t))
  (url : string) (res : Response) (data : value) :
  UserManager.users_url (this w) = Normal url ->
  fetch env w (Calls.get_users url) = Normal res ->
  ok res = true ->
  json res = Normal data ->
  run env UserManager.loadAllPeople_try w
  = match array_items data "data" "map" with
    | Thrown e => (send (Calls.get_users url) w, Thrown e)
    | Normal records =>
        match run env (mapM UserManager.person_of_record records)
                (send (Calls.get_users url) w) with
        | (w1, Thrown e) => (w1, Thrown e)
        | (w1, Normal loaded) =>
            (print {| level := console_log;
                      args := [CStr "Users loaded from API:"; CObj loaded] |}
               (set_this (UserManager.set_people loaded (this w1)) w1),
             Normal tt)
        end
    end.
Proof.
  intros Hurl Hfetch Hok Hjson.
  unfold UserManager.loadAllPeople_try. cbn [run].
  rewrite Hurl. cbn [lift bind run]. fold (Calls.get_users url).
  rewrite Hfetch. cbn [lift bind]. rewrite Hok. cbn [negb run].
  rewrite Hjson. cbn [lift bind].
  destruct (array_items data "data" "map") as [records | e]; cbn [lift bind run];
    [| reflexivity].
  rewrite run_bind.
  destruct (run env (mapM UserManager.person_of_record records) _) as [w1 [loaded | e]];
    reflexivity.
Qed.

(** X9.  A response that cannot be read as a whole is not read at all: a
    body that is not an array, or an array with a record that is [null] or
    has no array of medications, makes [loadAllPeople] log a TypeError and
    leave the people as they were, also those records that came before the
    bad one and were fine (their warnings stay on the console). *)
Theorem loadAllPeople_all_or_nothing
  (w : World UserManager.t (list Person.t)) (url : string) (res : Response) :
  UserManager.users_url (this w) = Normal url ->
  fetch env w (Calls.get_users url) = Normal res ->
  ok res = true ->
  (forall data : value,
      json res = Normal data ->
      Report.is_array data = false ->
      exists e : exn,
        ctor e = TypeError
        /\ run env UserManager.loadAllPeople w
           = (print (Calls.caught "Failed to load users:" e)
                (send (Calls.get_users url) w),
              Normal tt))
  /\ (forall (goods : list value) (bad : value) (rest : list value),
        json res = Normal (VArr (goods ++ bad :: rest)) ->
        forallb Wire.person_record goods = true ->
        Report.unreadable_record bad = true ->
        exists e : exn,
          ctor e = TypeError
          /\ run env UserManager.loadAllPeople w
             = (print (Calls.caught "Failed to load users:" e)
                  (prints (flat_map Wire.excess_warnings goods)
                     (send (Calls.get_users url) w)),
                Normal tt)).
Proof.
  intros Hurl Hfetch Hok. split.
  - intros data Hjson Hdata.
    unfold UserManager.loadAllPeople, UserManager.loadAllPeople_catch.
    rewrite run_logging_catch.
    rewrite (run_loadAllPeople_ok w url res data Hurl Hfetch Hok Hjson).
    destruct data; try discriminate Hdata;
      (eexists; split; [| reflexivity]; reflexivity).
  - intros goods bad rest Hjson Hgoods Hbad.
    destruct (run_person_of_record_unreadable bad Hbad) as [e [He Hrun]].
    exists e. split; [exact He |].
    unfold UserManager.loadAllPeople, UserManager.loadAllPeople_catch.
    rewrite run_logging_catch.
    rewrite (run_loadAllPeople_ok w url res _ Hurl Hfetch Hok Hjson).
    cbn [array_items].
    rewrite (run_mapM_bad_record goods bad rest e Hgoods Hrun). reflexivity.
Qed.

Lemma attach_medication_keeps_cap (person person' : Person.t) (m : value)
  (w w' : World UserManager.t (list Person.t)) :
  run env (UserManager.attach_medication person m) w = (w', Normal person') ->
  Report.within_cap person -> Report.within_cap person'.
Proof.
  unfold UserManager.attach_medication.
  destruct (get m "name") as [n | e]; cbn [lift bind run]; [| discriminate].
  destruct (get m "frequencyPerDay") as [f | e]; cbn [lift bind run]; [| discriminate].
  destruct (get m "taken") as [t | e]; cbn [lift bind run]; [| discriminate].
  destruct (get m "refillDate") as [r | e]; cbn [lift bind run]; [| discriminate].
  destruct (Date_new r) as [d | e]; cbn [lift bind run]; [| discriminate].
  unfold Medication.new. cbn [bind].
  apply addMedication_keeps_cap.
Qed.

Lemma person_of_record_within_cap (p : value) (person : Person.t)
  (w w' : World UserManager.t (list Person.t)) :
  run env (UserManager.person_of_record p) w = (w', Normal person) ->
  Report.within_cap person.
Proof.
  unfold UserManager.person_of_record.
  destruct (get p "name") as [n | e]; cbn [lift bind run]; [| discriminate].
  destruct (get p "medications") as [ms | e]; cbn [lift bind run]; [| discriminate].
  destruct (array_items ms "p.medications" "forEach") as [items | e]; cbn [lift bind run];
    [| discriminate].
  intros Hrun.
  apply (run_forEach_invariant env UserManager.attach_medication Report.within_cap items
           (fun b x w0 w0' b' => attach_medication_keeps_cap b b' x w0 w0')
           _ _ _ _ Hrun).
  unfold Report.within_cap. cbn. lia.
Qed.

Lemma loadAllPeople_try_within_cap (w w1 : World UserManager.t (list Person.t)) :
  run env UserManager.loadAllPeople_try w = (w1, Normal tt) ->
  Forall Report.within_cap (UserManager.people (this w1)).
Proof.
  unfold UserManager.loadAllPeople_try. cbn [run].
  destruct (UserManager.users_url (this w)) as [url | e]; cbn [lift bind run];
    [| discriminate].
  destruct (fetch env w _) as [res | e]; cbn [lift bind run]; [| discriminate].
  destruct (ok res); cbn [negb lift bind run ToString]; [| discriminate].
  destruct (json res) as [data | e]; cbn [lift bind run]; [| discriminate].
  destruct (array_items data "data" "map") as [records | e]; cbn [lift bind run];
    [| discriminate].
  rewrite run_bind.
  destruct (run env (mapM UserManager.person_of_record records) _)
    as [w2 [loaded | e]] eqn:Hmap; [| discriminate].
  cbn [run console]. intros Hrun. injection Hrun as <-.
  cbn [print set_this this UserManager.set_people UserManager.people].
  apply (run_mapM_Forall env UserManager.person_of_record Report.within_cap records
           (fun x w0 w0' y => person_of_record_within_cap x y w0 w0') _ _ _ Hmap).
Qed.

(** X10.  Every person [loadAllPeople] puts into the list has at most five
    medications, whatever the response holds; with [addPerson] given such
    a person, and the other operations, a list of people who are all
    within the cap stays one. *)
Theorem medication_cap_kept_by_manager
  (w : World UserManager.t (list Person.t)) (person : Person.t) :
  Forall Report.within_cap (UserManager.people (this w)) ->
  Forall Report.within_cap
    (UserManager.people (this (fst (run env UserManager.loadAllPeople w))))
  /\ (Report.within_cap person ->
      Forall Report.within_cap
        (UserManager.people (this (fst (run env (UserManager.addPerson person) w)))))
  /\ Forall Report.within_cap
       (UserManager.people (this (fst (run env (UserManager.savePersonToServer person) w))))
  /\ Forall Report.within_cap
       (UserManager.people (this (fst (run env UserManager.clearAllDataOnServer w))))
  /\ Forall Report.within_cap
       (UserManager.people (this (fst (run env UserManager.listAll w)))).
Proof.
  intros Hcap. split; [| split; [| split; [| split]]].
  - unfold UserManager.loadAllPeople, UserManager.loadAllPeople_catch.
    rewrite run_logging_catch.
    destruct (run env UserManager.loadAllPeople_try w) as [w1 [[] | e]] eqn:Htry;
      cbn [fst print this].
    + apply (loadAllPeople_try_within_cap w w1 Htry).
    + rewrite (run_loadAllPeople_try_thrown env w w1 e Htry). exact Hcap.
  - intros Hperson.
    destruct (run_addPerson_people env person w) as [_ ->].
    destruct (List.length (UserManager.people (this w)) <? 5)%nat; [| exact Hcap].
    apply Forall_app. split; [exact Hcap | constructor; [exact Hperson | constructor]].
  - rewrite keeps_this_run by apply keeps_this_savePersonToServer. exact Hcap.
  - destruct (run_clearAllDataOnServer_people env w) as [-> | ->];
      [constructor | exact Hcap].
  - rewrite keeps_this_run by apply keeps_this_listAll. exact Hcap.
Qed.

(** X11.  Loading twice is loading once: when the second request is
    answered like the first, the second load leaves the people the first
    one left (and writes the same warnings again). *)
Theorem loadAllPeople_twice
  (w : World UserManager.t (list Person.t)) (url : string) (res : Response)
  (records : list value) :
  UserManager.users_url (this w) = Normal url ->
  fetch env w (Calls.get_users url) = Normal res ->
  fetch env (Calls.loaded_world url records w) (Calls.get_users url) = Normal res ->
  ok res = true ->
  json res = Normal (VArr records) ->
  forallb Wire.person_record records = true ->
  run env (UserManager.loadAllPeople ;; UserManager.loadAllPeople) w
  = (Calls.loaded_world url records (Calls.loaded_world url records w), Normal tt)
  /\ UserManager.people
       (this (Calls.loaded_world url records (Calls.loaded_world url records w)))
     = UserManager.people (this (Calls.loaded_world url records w)).
Proof.
  intros Hurl Hfetch Hagain Hok Hjson Hrecords. split; [| reflexivity].
  rewrite run_bind.
  rewrite (run_loadAllPeople_success env w url res records) by assumption.
  apply (run_loadAllPeople_success env _ url res records); assumption.
Qed.

(** X12.  After [clearAllDataOnServer] has completed there is room again:
    up to five awaited calls of [addPerson] then leave exactly the people
    given, whatever was there before. *)
Theorem clear_then_add
  (w : World UserManager.t (list Person.t)) (url : string) (res : Response)
  (persons : list Person.t) :
  UserManager.users_url (this w) = Normal url ->
  fetch env w (Calls.delete_users url) = Normal res ->
  (List.length persons <= 5)%nat ->
  snd (run env (UserManager.clearAllDataOnServer ;; Calls.addPeople persons) w)
  = Normal tt
  /\ UserManager.people
       (this (fst (run env (UserManager.clearAllDataOnServer ;; Calls.addPeople persons) w)))
     = persons.
Proof.
  intros Hurl Hfetch Hlen.
  rewrite run_bind.
  rewrite (run_clearAllDataOnServer_completed env w url Hurl res Hfetch).
  match goal with
  | |- context [run env (Calls.addPeople persons) ?w0] =>
      destruct (run_addPeople env persons w0) as [Hr Hp]; [cbn; lia |]
  end.
  split; [exact Hr |].
  rewrite Hp. cbn [print set_this this UserManager.set_people UserManager.people app].
  apply firstn_all2. exact Hlen.
Qed.

(** X13.  A reply that comes late overwrites what happened meanwhile: a
    [loadAllPeople] that was waiting for its response, resumed in any
    later state of the manager, replaces the people of that state by the
    people of the response; and a [clearAllDataOnServer] that was
    waiting empties the list of that state. *)
Theorem late_reply_overwrites
  (w : World UserManager.t (list Person.t)) (url : string) :
  UserManager.users_url (this w) = Normal url ->
  (forall (w1 : World UserManager.t (list Person.t)) (pd : paused _ _ unit),
      start env UserManager.loadAllPeople w = (w1, pd) ->
      forall (env' : Env UserManager.t (list Person.t))
             (w2 : World UserManager.t (list Person.t))
             (res : Response) (records : list value),
        fetch env' w2 (Calls.get_users url) = Normal res ->
        ok res = true ->
        json res = Normal (VArr records) ->
        forallb Wire.person_record records = true ->
        UserManager.people (this (fst (finish env' (w2, pd))))
        = map Wire.person_of records)
  /\ (forall (w1 : World UserManager.t (list Person.t)) (pd : paused _ _ unit),
        start env UserManager.clearAllDataOnServer w = (w1, pd) ->
        forall (env' : Env UserManager.t (list Person.t))
               (w2 : World UserManager.t (list Person.t)) (res : Response),
          fetch env' w2 (Calls.delete_users url) = Normal res ->
          UserManager.people (this (fst (finish env' (w2, pd)))) = []).
Proof.
  intros Hurl. split.
  - intros w1 pd Hstart env' w2 res records Hfetch Hok Hjson Hrecords.
    unfold UserManager.loadAllPeople, UserManager.loadAllPeople_try in Hstart.
    cbn [try_catch start] in Hstart. rewrite Hurl in Hstart.
    cbn [lift bind try_catch start] in Hstart. injection Hstart as _ <-.
    cbn [finish]. fold (Calls.get_users url). rewrite Hfetch.
    cbn [lift bind try_catch]. rewrite Hok. cbn [negb try_catch run].
    rewrite Hjson. cbn [lift bind array_items].
    rewrite run_try_catch, run_bind, run_mapM_person_of_record by exact Hrecords.
    reflexivity.
  - intros w1 pd Hstart env' w2 res Hfetch.
    unfold UserManager.clearAllDataOnServer, UserManager.clearAllDataOnServer_try in Hstart.
    cbn [try_catch start] in Hstart. rewrite Hurl in Hstart.
    cbn [lift bind try_catch start] in Hstart. injection Hstart as _ <-.
    cbn [finish]. fold (Calls.delete_users url). rewrite Hfetch.
    reflexivity.
Qed.

Lemma users_url_set_people (ps : list Person.t) (this : UserManager.t) :
  UserManager.users_url (UserManager.set_people ps this) = UserManager.users_url this.
Proof. reflexivity. Qed.

Lemma network_run_catch (body : UserManager.action unit) (label : string)
  (w : World UserManager.t (list Person.t)) :
  network (fst (run env
                  (try_catch body
                     (fun err => console console_error
                                   [CStr label; CStr (message err)])) w))
  = network (fst (run env body w)).
Proof.
  rewrite run_logging_catch.
  destruct (run env body w) as [w1 [a | e]]; reflexivity.
Qed.

Lemma savePersonToServer_sends (person : Person.t)
  (w : World UserManager.t (list Person.t)) :
  network (fst (run env (UserManager.savePersonToServer person) w)) = network w
  \/ exists (url : string) (payload : value),
       UserManager.users_url (this w) = Normal url
       /\ UserManager.person_payload person = Normal payload
       /\ network (fst (run env (UserManager.savePersonToServer person) w))
          = (network w ++ [Calls.post_users url payload])%list.
Proof.
  unfold UserManager.savePersonToServer, UserManager.savePersonToServer_catch.
  rewrite network_run_catch.
  unfold UserManager.savePersonToServer_try. cbn [run].
  destruct (UserManager.users_url (this w)) as [url | e]; cbn [lift bind run];
    [| left; reflexivity].
  destruct (UserManager.person_payload person) as [payload | e]; cbn [lift bind run];
    [| left; reflexivity].
  right. exists url, payload. split; [reflexivity | split; [reflexivity |]].
  rewrite sends_nothing_run; [reflexivity |]. quiet.
Qed.

(** X14.  No operation sends more than one request, and each goes where
    it should: [loadAllPeople] a GET, [clearAllDataOnServer] a DELETE,
    [savePersonToServer] and [addPerson] a POST with the person as body,
    all to [`${apiBaseUrl}/users`]; [listAll] sends nothing. *)
Theorem at_most_one_request
  (w : World UserManager.t (list Person.t)) (person : Person.t) :
  (network (fst (run env UserManager.loadAllPeople w)) = network w
   \/ exists url : string,
        UserManager.users_url (this w) = Normal url
        /\ network (fst (run env UserManager.loadAllPeople w))
           = (network w ++ [Calls.get_users url])%list)
  /\ (network (fst (run env UserManager.clearAllDataOnServer w)) = network w
      \/ exists url : string,
           UserManager.users_url (this w) = Normal url
           /\ network (fst (run env UserManager.clearAllDataOnServer w))
              = (network w ++ [Calls.delete_users url])%list)
  /\ (network (fst (run env (UserManager.savePersonToServer person) w)) = network w
      \/ exists (url : string) (payload : value),
           UserManager.users_url (this w) = Normal url
           /\ UserManager.person_payload person = Normal payload
           /\ network (fst (run env (UserManager.savePersonToServer person) w))
              = (network w ++ [Calls.post_users url payload])%list)
  /\ (network (fst (run env (UserManager.addPerson person) w)) = network w
      \/ exists (url : string) (payload : value),
           UserManager.users_url (this w) = Normal url
           /\ UserManager.person_payload person = Normal payload
           /\ network (fst (run env (UserManager.addPerson person) w))
              = (network w ++ [Calls.post_users url payload])%list)
  /\ network (fst (run env UserManager.listAll w)) = network w.
Proof.
  split; [| split; [| split; [| split]]].
  - unfold UserManager.loadAllPeople, UserManager.loadAllPeople_catch.
    rewrite network_run_catch.
    unfold UserManager.loadAllPeople_try. cbn [run].
    destruct (UserManager.users_url (this w)) as [url | e]; cbn [lift bind run];
      [| left; reflexivity].
    right. exists url. split; [reflexivity |].
    rewrite sends_nothing_run; [reflexivity |].
    quiet;
      first [ apply sends_nothing_person_of_record
            | apply sends_nothing_Medication_new
            | apply sends_nothing_addMedication ].
  - unfold UserManager.clearAllDataOnServer, UserManager.clearAllDataOnServer_catch.
    rewrite network_run_catch.
    unfold UserManager.clearAllDataOnServer_try. cbn [run].
    destruct (UserManager.users_url (this w)) as [url | e]; cbn [lift bind run];
      [| left; reflexivity].
    right. exists url. split; [reflexivity |].
    rewrite sends_nothing_run; [reflexivity |]. quiet.
  - apply savePersonToServer_sends.
  - destruct (Nat.ltb_spec (List.length (UserManager.people (this w))) 5) as [Hroom | Hfull].
    + destruct (run_addPerson_room env person w Hroom) as [_ Hrun].
      cbv zeta in Hrun. rewrite Hrun.
      match goal with
      | |- context [run env (UserManager.savePersonToServer person) ?w0] =>
          destruct (savePersonToServer_sends person w0) as [Hnone | Hone]
      end.
      * left. exact Hnone.
      * right. exact Hone.
    + destruct (run_addPerson_full env person w Hfull) as [_ ->]. left. reflexivity.
  - apply sends_nothing_run. apply sends_nothing_listAll.
Qed.

End LoadMoreFacts.

(** ** Saving to a store and loading from it *)

Section StoreFacts.
Context `{Host}.

Lemma ToString_string (v : value) :
  Wire.is_string v = true -> ToString v = Normal (Wire.text_of v).
Proof. destruct v; try discriminate. reflexivity. Qed.

(** X15.  Against a store that keeps what it is sent and answers GET with
    what it keeps: a new manager, with a string for its [apiBaseUrl], that
    adds a person and then loads has exactly that person, when the name of
    the person is a string and the medications are at most five, each with
    a string for its name, an integer for [frequencyPerDay], a boolean for
    [taken] and a valid refill date. *)
Theorem save_then_load_round_trip
  (person : Person.t) (base : string) (w : World UserManager.t (list Person.t)) :
  Wire.person_typed person = true ->
  (List.length (Person.medications person) <= 5)%nat ->
  Wire.dates_valid person = true ->
  this w = UserManager.new (VStr base) ->
  network w = [] ->
  UserManager.people
    (this (fst (run Sample.store
                  (UserManager.addPerson person ;; UserManager.loadAllPeople) w)))
  = [person].
Proof.
  intros Htyped Hlen Hvalid Hthis Hnet.
  destruct w as [t out net]. cbn [this network] in Hthis, Hnet. subst t net.
  set (w := {| this := UserManager.new (VStr base); console_out := out; network := [] |}).
  set (url := base ++ "/users").
  rewrite run_bind.
  destruct (run_addPerson_room Sample.store person w) as [_ Hadd]; [cbn; lia |].
  cbv zeta in Hadd. rewrite Hadd. clear Hadd.
  set (pushed := set_this _ w).
  assert (Hname : ToString (Person.name person) = Normal (Wire.text_of (Person.name person))).
  { apply ToString_string. unfold Wire.person_typed in Htyped.
    apply andb_prop in Htyped. apply Htyped. }
  rewrite (run_savePersonToServer_ok Sample.store pushed url eq_refl person
             (Wire.record_of_person person) Sample.created
             (person_payload_valid person Hvalid) eq_refl eq_refl).
  cbn [json Sample.created]. rewrite Hname. cbn [cbind get lookup String.eqb Ascii.eqb
    Bool.eqb nullish ToString].
  set (w1 := print _ (send _ pushed)).
  assert (Hstored : Sample.stored (network w1) = [Wire.record_of_person person]).
  { cbn [w1 print send pushed set_this w network app Sample.stored fold_left
         Calls.post_users method body String.eqb Ascii.eqb Bool.eqb JSON_parse].
    rewrite JSON_echo_record_of_person by exact Htyped. reflexivity. }
  rewrite (run_loadAllPeople_success Sample.store w1 url
             (Sample.users_response [Wire.record_of_person person])
             [Wire.record_of_person person]).
  - cbn [fst Calls.loaded_world print set_this this UserManager.set_people
         UserManager.people map].
    destruct (person_of_record_of_person person Htyped Hvalid Hlen) as [-> _].
    reflexivity.
  - reflexivity.
  - cbn [Sample.store fetch Calls.get_users method String.eqb Ascii.eqb Bool.eqb].
    rewrite Hstored. reflexivity.
  - reflexivity.
  - reflexivity.
  - cbn [forallb]. rewrite person_record_record_of_person by exact Htyped. reflexivity.
Qed.

(** X18.  A medication record with keys missing: an object without
    [taken] loads as not taken, one without [refillDate] with the Invalid
    Date, and the medication is then attached by [addMedication] like any
    other; an entry that is [null] makes the load throw a TypeError. *)
Theorem loading_a_sparse_medication
  (env : Env UserManager.t (list Person.t)) (w : World UserManager.t (list Person.t))
  (person : Person.t) :
  (forall props : list (string * value),
      Report.is_primitive (lookup "refillDate" props) = true ->
      exists d : Date,
        Date_new (lookup "refillDate" props) = Normal d
        /\ (lookup "refillDate" props = VUndefined -> d = InvalidDate)
        /\ run env (UserManager.attach_medication person (VObj props)) w
           = run env
               (Person.addMedication
                  {| Medication.name := lookup "name" props;
                     Medication.frequencyPerDay := lookup "frequencyPerDay" props;
                     Medication.taken := Report.taken_or_false (lookup "taken" props);
                     Medication.refillDate := d |}
                  person) w)
  /\ exists e : exn,
       ctor e = TypeError
       /\ run env (UserManager.attach_medication person VNull) w = (w, Thrown e).
Proof.
  split.
  - intros props Hprim.
    unfold UserManager.attach_medication. cbn [get lift bind].
    destruct (lookup "refillDate" props) as [| | b | n | s | items | props'];
      try discriminate Hprim; cbn [Date_new lift bind];
      eexists; (split; [reflexivity |]); (split; [try discriminate; reflexivity |]);
      unfold Medication.new, Report.taken_or_false;
      destruct (lookup "taken" props); reflexivity.
  - eexists. split; [| reflexivity]. reflexivity.
Qed.

End StoreFacts.

(** ** The further properties at sample inputs *)

Section MoreSamples.
Import Sample.
#[local] Existing Instance utc_host.

Lemma Medication_new_normalizes_witness :
  exists d : Date,
    run offline
      (Medication.new (VStr "Aspirin") (VNum 2) VUndefined (Medication.AValue VNull))
      manager
    = (manager,
       Normal {| Medication.name := VStr "Aspirin";
                 Medication.frequencyPerDay := VNum 2;
                 Medication.taken := VBool false;
                 Medication.refillDate := d |}).
Proof.
  destruct (Medication_new_normalizes offline manager (VStr "Aspirin") (VNum 2) VUndefined)
    as [_ [_ [_ Hprimitive]]].
  apply (Hprimitive VNull). reflexivity.
Defined.

Lemma addMedication_outcomes_witness :
  run offline (Person.addMedication atorvastatin (named "Ann")) manager
  = (manager, Normal {| Person.name := VStr "Ann"; Person.medications := [atorvastatin] |})
  /\ run offline (Person.addMedication atorvastatin alex) manager
     = (print
          {| level := console_warn; args := [CStr "Alex already has 5 medications."] |}
          manager,
        Normal alex)
  /\ (exists e : exn,
        ctor e = TypeError
        /\ run offline
             (Person.addMedication atorvastatin
                {| Person.name := VObj [("toString", VNum 1)];
                   Person.medications := alex_pills |})
             manager
           = (manager, Thrown e))
  /\ Person.name alex = Person.name alex.
Proof.
  split; [| split; [| split]].
  - destruct (addMedication_outcomes offline atorvastatin (named "Ann") manager)
      as [Hroom _].
    apply Hroom. cbn; lia.
  - destruct (addMedication_outcomes offline atorvastatin alex manager)
      as [_ [Hfull _]].
    apply (Hfull ltac:(cbn; lia) "Alex"); reflexivity.
  - destruct (addMedication_outcomes offline atorvastatin
                {| Person.name := VObj [("toString", VNum 1)];
                   Person.medications := alex_pills |} manager)
      as [_ [_ [Hthrows _]]].
    apply (Hthrows ltac:(cbn; lia)). reflexivity.
  - destruct (addMedication_outcomes offline atorvastatin alex manager)
      as [_ [_ [_ Hkept]]].
    apply (Hkept (print (Wire.full_warning "Alex") manager) alex). reflexivity.
Defined.

Lemma listMedications_writes_listing_witness :
  Report.person_listable alex = true
  /\ run offline (Person.listMedications alex) manager
     = (prints (Report.listing alex) manager, Normal tt).
Proof.
  split; [reflexivity |].
  apply (listMedications_writes_listing offline alex manager). reflexivity.
Defined.

Lemma listAll_writes_every_listing_witness :
  run offline UserManager.listAll (manager_with [alex; pat])
  = (prints (Report.listing alex ++ Report.listing pat) (manager_with [alex; pat]),
     Normal tt)
  /\ run offline UserManager.listAll manager = (manager, Normal tt).
Proof.
  split.
  - destruct (listAll_writes_every_listing offline (manager_with [alex; pat]) eq_refl)
      as [Hrun _].
    rewrite Hrun. reflexivity.
  - destruct (listAll_writes_every_listing offline manager eq_refl) as [_ Hempty].
    apply Hempty. reflexivity.
Defined.

Lemma savePersonToServer_confirms_witness :
  run (answering created) (UserManager.savePersonToServer alex) manager
  = (print
       {| level := console_log; args := [CStr "Saved Alex (User ID: 7)"] |}
       (send (Calls.post_users "https://api.example.com/users"
                (Wire.record_of_person alex))
          manager),
     Normal tt)
  /\ run (answering (users_response [])) (UserManager.savePersonToServer alex) manager
     = (print
          {| level := console_log; args := [CStr "Saved Alex (User ID: N/A)"] |}
          (send (Calls.post_users "https://api.example.com/users"
                   (Wire.record_of_person alex))
             manager),
        Normal tt).
Proof.
  split.
  - apply (savePersonToServer_confirms (answering created) manager alex
             "https://api.example.com" "Alex" "7"
             (VObj [("userId", VNum 7)]) (VNum 7) created);
      reflexivity.
  - apply (savePersonToServer_confirms (answering (users_response [])) manager alex
             "https://api.example.com" "Alex" "N/A"
             (VArr []) VUndefined (users_response []));
      reflexivity.
Defined.

Lemma invalid_date_is_never_sent_witness :
  exists e : exn,
    ctor e = RangeError
    /\ run (answering created) (UserManager.savePersonToServer pat) manager
       = (print (Calls.caught "Failed to save user:" e) manager, Normal tt)
    /\ network (fst (run (answering created) (UserManager.addPerson pat) manager)) = [].
Proof.
  destruct (invalid_date_is_never_sent (answering created) manager pat
              "https://api.example.com/users" eq_refl eq_refl)
    as [e [He [Hsave Hadd]]].
  exists e. split; [exact He | split; [exact Hsave |]].
  rewrite Hadd by (cbn; lia). reflexivity.
Defined.

Lemma savePersonToServer_unusable_body_witness :
  exists e : exn,
    ctor e = TypeError
    /\ run (answering {| ok := true; status := 200; json := Normal VNull |})
         (UserManager.savePersonToServer alex) manager
       = (print (Calls.caught "Failed to save user:" e)
            (send (Calls.post_users "https://api.example.com/users"
                     (Wire.record_of_person alex))
               manager),
          Normal tt).
Proof.
  destruct (savePersonToServer_unusable_body
              (answering {| ok := true; status := 200; json := Normal VNull |})
              manager alex "https://api.example.com/users" "Alex"
              (Wire.record_of_person alex)
              {| ok := true; status := 200; json := Normal VNull |}
              eq_refl eq_refl eq_refl eq_refl eq_refl) as [_ Hnull].
  apply Hnull. reflexivity.
Defined.

Lemma loadAllPeople_all_or_nothing_witness :
  (exists e : exn,
      ctor e = TypeError
      /\ UserManager.people
           (this (fst (run (answering created) UserManager.loadAllPeople
                         (manager_with five_people))))
         = five_people)
  /\ exists e : exn,
       ctor e = TypeError
       /\ run (answering (users_response [overfull_record; VNull; sam_record]))
            UserManager.loadAllPeople (manager_with five_people)
          = (print (Calls.caught "Failed to load users:" e)
               (prints [Wire.full_warning "Alex"]
                  (send (Calls.get_users "https://api.example.com/users")
                     (manager_with five_people))),
             Normal tt).
Proof.
  split.
  - destruct (loadAllPeople_all_or_nothing (answering created) (manager_with five_people)
                "https://api.example.com/users" created eq_refl eq_refl eq_refl)
      as [Hshape _].
    destruct (Hshape (VObj [("userId", VNum 7)]) eq_refl eq_refl) as [e [He Hrun]].
    exists e. split; [exact He |]. rewrite Hrun. reflexivity.
  - destruct (loadAllPeople_all_or_nothing
                (answering (users_response [overfull_record; VNull; sam_record]))
                (manager_with five_people) "https://api.example.com/users"
                (users_response [overfull_record; VNull; sam_record])
                eq_refl eq_refl eq_refl)
      as [_ Hrecord].
    destruct (Hrecord [overfull_record] VNull [sam_record] eq_refl eq_refl eq_refl)
      as [e [He Hrun]].
    exists e. split; [exact He |]. rewrite Hrun. reflexivity.
Defined.

Lemma medication_cap_kept_by_manager_witness :
  Forall Report.within_cap
    (UserManager.people
       (this (fst (run (answering (users_response [overfull_record]))
                     UserManager.loadAllPeople (manager_with [alex]))))).
Proof.
  destruct (medication_cap_kept_by_manager (answering (users_response [overfull_record]))
              (manager_with [alex]) alex) as [Hload _].
  - constructor; [unfold Report.within_cap; cbn; lia | constructor].
  - exact Hload.
Defined.

Lemma loadAllPeople_twice_witness :
  UserManager.people
    (this (fst (run (answering (users_response six_records))
                  (UserManager.loadAllPeople ;; UserManager.loadAllPeople) manager)))
  = map Wire.person_of six_records.
Proof.
  destruct (loadAllPeople_twice (answering (users_response six_records)) manager
              "https://api.example.com/users" (users_response six_records) six_records
              eq_refl eq_refl eq_refl eq_refl eq_refl eq_refl) as [Hrun _].
  rewrite Hrun. reflexivity.
Defined.

Lemma clear_then_add_witness :
  UserManager.people
    (this (fst (run (answering server_error)
                  (UserManager.clearAllDataOnServer ;; Calls.addPeople [alex; pat])
                  (manager_with five_people))))
  = [alex; pat].
Proof.
  destruct (clear_then_add (answering server_error) (manager_with five_people)
              "https://api.example.com/users" server_error [alex; pat]
              eq_refl eq_refl) as [_ Hpeople].
  - cbn; lia.
  - exact Hpeople.
Defined.

Lemma late_reply_overwrites_witness :
  UserManager.people
    (this (fst (finish (answering (users_response [sam_record]))
                  (manager_with five_people,
                   snd (start offline UserManager.loadAllPeople manager)))))
  = [Wire.person_of sam_record]
  /\ UserManager.people
       (this (fst (finish (answering created)
                     (manager_with five_people,
                      snd (start offline UserManager.clearAllDataOnServer manager)))))
     = [].
Proof.
  destruct (late_reply_overwrites offline manager "https://api.example.com/users" eq_refl)
    as [Hload Hclear].
  split.
  - apply (Hload (fst (start offline UserManager.loadAllPeople manager))
             (snd (start offline UserManager.loadAllPeople manager)) eq_refl
             (answering (users_response [sam_record])) (manager_with five_people)
             (users_response [sam_record]) [sam_record]); reflexivity.
  - apply (Hclear (fst (start offline UserManager.clearAllDataOnServer manager))
             (snd (start offline UserManager.clearAllDataOnServer manager))
             eq_refl (answering created) (manager_with five_people) created).
    reflexivity.
Defined.

Lemma save_then_load_round_trip_witness :
  UserManager.people
    (this (fst (run store (UserManager.addPerson alex ;; UserManager.loadAllPeople)
                  manager)))
  = [alex].
Proof.
  apply (save_then_load_round_trip alex "https://api.example.com" manager);
    [reflexivity | cbn; lia | reflexivity | reflexivity | reflexivity].
Defined.

Lemma people_cap_kept_elsewhere_witness :
  (List.length
     (UserManager.people
        (this (fst (run (answering created) (UserManager.addPerson alex)
                      (manager_with five_people))))) <= 5)%nat.
Proof.
  destruct (people_cap_kept_elsewhere (answering created) (manager_with five_people) alex)
    as [Hadd _].
  - cbn; lia.
  - exact Hadd.
Defined.

Lemma keeps_this_addPerson_rest_witness :
  this (fst (finish (answering server_error)
               (manager_with five_people,
                snd (start offline (UserManager.addPerson alex) manager))))
  = this (manager_with five_people).
Proof.
  apply (keeps_this_addPerson_rest offline alex manager
           (fst (start offline (UserManager.addPerson alex) manager))
           (snd (start offline (UserManager.addPerson alex) manager))).
  reflexivity.
Defined.

Lemma loading_a_sparse_medication_witness :
  exists d : Date,
    d = InvalidDate
    /\ run offline
         (UserManager.attach_medication (named "Ann") (VObj [("name", VStr "X")]))
         manager
       = (manager,
          Normal {| Person.name := VStr "Ann";
                    Person.medications :=
                      [{| Medication.name := VStr "X";
                          Medication.frequencyPerDay := VUndefined;
                          Medication.taken := VBool false;
                          Medication.refillDate := d |}] |}).
Proof.
  destruct (loading_a_sparse_medication offline manager (named "Ann")) as [Hsparse _].
  destruct (Hsparse [("name", VStr "X")] eq_refl) as [d [_ [Hinvalid Hrun]]].
  exists d. split; [apply Hinvalid; reflexivity |].
  rewrite Hrun. rewrite (Hinvalid eq_refl). reflexivity.
Defined.

End MoreSamples.
